(** * Design Agent backend: request pipeline and design-generation workflow

    A shallow embedding of [backend/src/index.ts] (the Express server) and
    of the shared interface declarations ([User], [Project], [Design], ...).

    Modelling conventions.
    - Request bodies and stored documents are untyped in the server
      ([req.body], [project: any], [content: any]); caller-supplied fields
      are therefore JSON values ([Js.jsval]).  Numbers are the
      integer-valued doubles below 2^53, written as [Z]; fractional numbers
      are outside the value type.  A string is the sequence of bytes of
      its UTF-8 encoding.  An object is the list of its fields, read in
      the order of their names (the order in which the store returns
      them), so that two objects are equal when their lists are.
    - A promise is its settled outcome ([Resolved] / [Rejected]); a
      [try { ... } catch] block turns [Rejected] into the handler's
      fallback.
    - The document store is Firestore: a collection is an association list
      from document id to document, in insertion order.  Fresh ids and the
      clock ([new Date()]) are inputs of the handler that needs them.
      Firestore's checks on what it is given are part of the model: the
      shape of a document path ([Store.docId]) and the values it refuses
      to write or to query by ([Store.writable]).  Its limits on size and
      nesting depth are not, nor are the in-memory stub installed when
      Firebase cannot be initialised, the global rate limiter and the
      body-size limit.
    - The third-party services are passed to the handlers: the OpenAI
      client in [Gen.services], jsonwebtoken, bcrypt and the image
      pipeline in [Server.platform].  What a theorem assumes about them is
      a hypothesis of that theorem.  The [upload.single] middleware
      follows multer's documented behaviour under the configured limit. *)

From Stdlib Require Import ZArith List String Ascii Bool Lia.
From Stdlib Require Import DecimalString.
From Stdlib Require Import Sorted Permutation.
Import ListNotations.
Open Scope string_scope.

(* ===================================================================== *)
(** ** JavaScript values and the coercions the server relies on *)
(* ===================================================================== *)

Module Js.

#[local] Set Warnings "-register-all".

Inductive jsval : Type :=
| JUndefined
| JNull
| JBool (b : bool)
| JNum (z : Z)
| JStr (s : string)
| JArr (items : list jsval)
| JObj (fields : list (string * jsval)).

(** Settled promise / completion: a value, or a thrown error. *)
Inductive outcome (A : Type) : Type :=
| Resolved (a : A)
| Rejected.
Arguments Resolved {A} a.
Arguments Rejected {A}.

Definition bind {A B} (m : outcome A) (k : A -> outcome B) : outcome B :=
  match m with
  | Resolved a => k a
  | Rejected => Rejected
  end.

Notation "x <- m ;; k" := (bind m (fun x => k))
  (at level 61, m at next level, right associativity).

Definition nullish (v : jsval) : bool :=
  match v with
  | JUndefined | JNull => true
  | _ => false
  end.

(** [ToBoolean]. *)
Definition truthy (v : jsval) : bool :=
  match v with
  | JUndefined | JNull => false
  | JBool b => b
  | JNum z => negb (z =? 0)%Z
  | JStr s => negb (s =? "")
  | JArr _ | JObj _ => true
  end.

Fixpoint lookup (k : string) (fields : list (string * jsval)) : option jsval :=
  match fields with
  | [] => None
  | (k', v) :: rest => if k =? k' then Some v else lookup k rest
  end.

(** [v.k] for a data property name [k] that no built-in prototype defines
    (all names read by the server are of this kind): a [TypeError] on
    [undefined] and [null], [undefined] on other primitives and arrays. *)
Definition member (v : jsval) (k : string) : outcome jsval :=
  match v with
  | JUndefined | JNull => Rejected
  | JObj fields =>
      match lookup k fields with
      | Some x => Resolved x
      | None => Resolved JUndefined
      end
  | _ => Resolved JUndefined
  end.

Definition string_of_Z (z : Z) : string :=
  NilZero.string_of_int (Z.to_int z).

(** [Array.prototype.join] over an element printer. *)
Definition joinWith (str : jsval -> outcome string) (sep : string)
  : list jsval -> outcome string :=
  fix go (l : list jsval) : outcome string :=
    match l with
    | [] => Resolved ""
    | x :: rest =>
        sx <- (if nullish x then Resolved "" else str x) ;;
        match rest with
        | [] => Resolved sx
        | _ :: _ => sr <- go rest ;; Resolved (sx ++ sep ++ sr)
        end
    end.

(** [ToString].  A plain object prints as [[object Object]] through
    [Object.prototype.toString]; an own [toString] field (never callable in
    JSON data) hides that method, [valueOf] then yields the object itself
    and the conversion throws. *)
Fixpoint toStr (v : jsval) : outcome string :=
  match v with
  | JUndefined => Resolved "undefined"
  | JNull => Resolved "null"
  | JBool true => Resolved "true"
  | JBool false => Resolved "false"
  | JNum z => Resolved (string_of_Z z)
  | JStr s => Resolved s
  | JArr items => joinWith toStr "," items
  | JObj fields =>
      match lookup "toString" fields with
      | Some _ => Rejected
      | None => Resolved "[object Object]"
      end
  end.

(** [v.join(sep)]: only arrays have a callable [join]. *)
Definition callJoin (v : jsval) (sep : string) : outcome string :=
  match v with
  | JArr items => joinWith toStr sep items
  | _ => Rejected
  end.

(** Equality of values, field by field: [==] of a Firestore query, on
    values as they are stored. *)
Fixpoint jsEq (a b : jsval) : bool :=
  match a, b with
  | JUndefined, JUndefined => true
  | JNull, JNull => true
  | JBool x, JBool y => Bool.eqb x y
  | JNum x, JNum y => (x =? y)%Z
  | JStr x, JStr y => x =? y
  | JArr xs, JArr ys =>
      (fix go (l m : list jsval) : bool :=
         match l, m with
         | [], [] => true
         | x :: l', y :: m' => jsEq x y && go l' m'
         | _, _ => false
         end) xs ys
  | JObj fs, JObj gs =>
      (fix go (l m : list (string * jsval)) : bool :=
         match l, m with
         | [], [] => true
         | (k, x) :: l', (k', y) :: m' => (k =? k') && jsEq x y && go l' m'
         | _, _ => false
         end) fs gs
  | _, _ => false
  end.

(** Induction on values, through the lists they nest. *)
Section ValueInduction.
Variable P : jsval -> Prop.
Hypothesis P_undefined : P JUndefined.
Hypothesis P_null : P JNull.
Hypothesis P_bool : forall b, P (JBool b).
Hypothesis P_num : forall z, P (JNum z).
Hypothesis P_str : forall s, P (JStr s).
Hypothesis P_arr : forall items, Forall P items -> P (JArr items).
Hypothesis P_obj :
  forall fields, Forall (fun kv => P (snd kv)) fields -> P (JObj fields).

Fixpoint jsval_induction (v : jsval) : P v :=
  match v with
  | JUndefined => P_undefined
  | JNull => P_null
  | JBool b => P_bool b
  | JNum z => P_num z
  | JStr s => P_str s
  | JArr items =>
      P_arr items
        ((fix go (l : list jsval) : Forall P l :=
            match l with
            | [] => Forall_nil P
            | x :: l' => Forall_cons x (jsval_induction x) (go l')
            end) items)
  | JObj fields =>
      P_obj fields
        ((fix go (l : list (string * jsval))
            : Forall (fun kv => P (snd kv)) l :=
            match l with
            | [] => Forall_nil _
            | kv :: l' => Forall_cons kv (jsval_induction (snd kv)) (go l')
            end) fields)
  end.

End ValueInduction.

Definition upper_ascii (c : ascii) : ascii :=
  let n := nat_of_ascii c in
  if ((97 <=? n) && (n <=? 122))%nat then ascii_of_nat (n - 32) else c.

(** [String.prototype.toUpperCase] on ASCII text. *)
Fixpoint toUpperCase (s : string) : string :=
  match s with
  | EmptyString => EmptyString
  | String c rest => String (upper_ascii c) (toUpperCase rest)
  end.

End Js.
Import Js.

(* ===================================================================== *)
(** ** Generation adapter: [generateDesign] *)
(* ===================================================================== *)

Module Gen.

(** [process.env], as far as the provider code reads it. *)
Record env : Type := {
  OPENAI_API_KEY : option string;
  GEMINI_API_KEY : option string;
  QWEN_API_KEY : option string
}.

(** [!!process.env.X]: set and not the empty string. *)
Definition configured (key : option string) : bool :=
  match key with
  | Some k => negb (k =? "")
  | None => false
  end.

(** Settled [openai.images.generate(...)]: a thrown error, or the [data]
    array of the response, each element with its optional [url]. *)
Inductive openai_reply : Type :=
| ApiThrew
| ApiData (data : list (option string)).

(** The live client: the reply to the [k]-th call of a request, given the
    prompt. *)
Definition openai_client : Type := nat -> string -> openai_reply.

(** The module-level handles [openai] and [gemini]; [None] / [false] is
    the unassigned ([undefined]) handle. *)
Record services : Type := {
  openai : option openai_client;
  gemini : bool
}.

(** Start-up: a handle is created only when its key is configured. *)
Definition initServices (e : env) (live : openai_client) : services :=
  {| openai := if configured (OPENAI_API_KEY e) then Some live else None;
     gemini := configured (GEMINI_API_KEY e) |}.

Definition nl : string := String (ascii_of_nat 10) EmptyString.

(** [project.brandElements?.<field>?.join(', ') || fallback]. *)
Definition brandList (project : jsval) (field fallback : string)
  : outcome string :=
  be <- member project "brandElements" ;;
  if nullish be then Resolved fallback else
  xs <- member be field ;;
  if nullish xs then Resolved fallback else
  s <- callJoin xs ", " ;;
  Resolved (if s =? "" then fallback else s).

(** [${content.<field> || ''}]. *)
Definition contentText (content : jsval) (field : string) : outcome string :=
  v <- member content field ;;
  if truthy v then toStr v else Resolved "".

(** The template literal bound to [prompt]; it is evaluated before the
    [try] block of [generateDesign] is entered. *)
Definition buildPrompt (project content : jsval) : outcome string :=
  dt <- member project "designType" ;;
  sdt <- toStr dt ;;
  colors <- brandList project "colorPalette" "default" ;;
  fonts <- brandList project "fonts" "modern" ;;
  title <- contentText content "title" ;;
  copy <- contentText content "copy" ;;
  description <- contentText content "description" ;;
  cta <- contentText content "cta" ;;
  footer <- contentText content "footerContent" ;;
  Resolved ("Create a professional " ++ sdt ++ " design. " ++ nl ++
            "    Colors: " ++ colors ++ nl ++
            "    Fonts: " ++ fonts ++ nl ++
            "    Title: " ++ title ++ nl ++
            "    Copy: " ++ copy ++ nl ++
            "    Description: " ++ description ++ nl ++
            "    CTA: " ++ cta ++ nl ++
            "    Footer: " ++ footer ++ nl ++
            "    Make it modern, professional, and visually appealing.").

Definition url_openai_not_configured : string :=
  "https://via.placeholder.com/1024x1024/FF6B6B/FFFFFF?text=OpenAI+Not+Configured".
Definition url_gemini_not_configured : string :=
  "https://via.placeholder.com/1024x1024/4F46E5/FFFFFF?text=Gemini+Not+Configured".
Definition url_gemini_generated : string :=
  "https://via.placeholder.com/1024x1024/4F46E5/FFFFFF?text=Gemini+Generated+Design".
Definition url_qwen_generated : string :=
  "https://via.placeholder.com/1024x1024/10B981/FFFFFF?text=Qwen+Generated+Design".
Definition url_demo (provider : string) : string :=
  "https://via.placeholder.com/1024x1024/6B7280/FFFFFF?text=Demo+Design+"
    ++ toUpperCase provider.
Definition url_error : string :=
  "https://via.placeholder.com/1024x1024/EF4444/FFFFFF?text=Error+Generating+Design".

(** The [switch (provider)] inside the [try] block.  [Rejected] here is an
    exception raised inside [try]. *)
Definition dispatch (svc : services) (prompt : string) (provider : jsval)
    (k : nat) : outcome string :=
  match provider with
  | JStr p =>
      if p =? "openai" then
        match openai svc with
        | None => Resolved url_openai_not_configured
        | Some client =>
            match client k prompt with
            | ApiThrew => Rejected
            | ApiData [] => Rejected
            | ApiData (Some u :: _) => Resolved u
            | ApiData (None :: _) => Resolved ""
            end
        end
      else if p =? "gemini" then
        Resolved (if gemini svc then url_gemini_generated
                  else url_gemini_not_configured)
      else if p =? "qwen" then Resolved url_qwen_generated
      else Resolved (url_demo p)
  | _ => Rejected
  end.

(** [generateDesign(project, content, provider = 'openai')], the [k]-th
    call of a request. *)
Definition generateDesign (svc : services) (project content provider : jsval)
    (k : nat) : outcome string :=
  let provider := match provider with JUndefined => JStr "openai" | p => p end in
  prompt <- buildPrompt project content ;;
  match dispatch svc prompt provider k with
  | Resolved url => Resolved url
  | Rejected =>
      (* catch: the log line interpolates [${provider}] *)
      _ <- toStr provider ;;
      Resolved url_error
  end.

End Gen.

(* ===================================================================== *)
(** ** Document store and documents *)
(* ===================================================================== *)

Module Store.

(** A collection: documents by id, in insertion order. *)
Definition collection (A : Type) : Type := list (string * A).

Fixpoint hasSlash (s : string) : bool :=
  match s with
  | EmptyString => false
  | String c rest => Ascii.eqb c "/"%char || hasSlash rest
  end.

Fixpoint reverse (s : string) : string :=
  match s with
  | EmptyString => EmptyString
  | String c rest => reverse rest ++ String c EmptyString
  end.

(** A name of the form [__.*__]. *)
Definition reservedId (s : string) : bool :=
  (4 <=? String.length s)%nat
  && String.prefix "__" s && String.prefix "__" (reverse s).

(** Firestore's constraints on a document id: not empty, at most 1500
    bytes, no slash, not [.] or [..], not of the form [__.*__]. *)
Definition validId (s : string) : bool :=
  negb (s =? "")
  && (String.length s <=? 1500)%nat
  && negb (hasSlash s)
  && negb (s =? ".") && negb (s =? "..")
  && negb (reservedId s).

Section Collection.
Context {A : Type}.

Fixpoint find (id : string) (c : collection A) : option A :=
  match c with
  | [] => None
  | (k, d) :: rest => if k =? id then Some d else find id rest
  end.

(** The read [collection.doc(x).get()] once the path [x] has resolved to
    the document id [id]: the document stored under [id]; [None] is
    [exists === false].  Nothing is stored under a string that is not a
    document id. *)
Definition get (id : string) (c : collection A) : option A :=
  if validId id then find id c else None.

(** [collection.add(doc)], with the id Firestore generated. *)
Definition add (id : string) (d : A) (c : collection A) : collection A :=
  (c ++ [(id, d)])%list.

(** [collection.doc(id).update(fields)]: merges into the document. *)
Fixpoint update (id : string) (f : A -> A) (c : collection A) : collection A :=
  match c with
  | [] => []
  | (k, d) :: rest =>
      if k =? id then (k, f d) :: rest else (k, d) :: update id f rest
  end.

(** [collection.where(...)]: the documents satisfying the filter. *)
Definition where_ (p : A -> bool) (c : collection A) : collection A :=
  filter (fun kd => p (snd kd)) c.

(** [.orderBy(field, 'desc')] on a numeric key. *)
Fixpoint insertDesc (key : A -> Z) (x : string * A) (l : collection A)
  : collection A :=
  match l with
  | [] => [x]
  | y :: rest =>
      if (key (snd y) <? key (snd x))%Z then x :: y :: rest
      else y :: insertDesc key x rest
  end.

Definition orderByDesc (key : A -> Z) (c : collection A) : collection A :=
  fold_right (insertDesc key) [] c.

End Collection.

Record User : Type := {
  u_email : jsval;
  u_password : string;
  u_firstName : jsval;
  u_lastName : jsval;
  u_role : string;
  u_createdAt : Z;
  u_updatedAt : Z
}.

Record Project : Type := {
  p_name : jsval;
  p_description : jsval;
  p_userId : string;
  p_brandElements : jsval;
  p_designType : jsval;
  p_createdAt : Z;
  p_updatedAt : Z
}.

Record Design : Type := {
  projectId : string;
  userId : string;
  content : jsval;
  baseReferenceImage : jsval;
  generatedImages : list string;
  currentVersion : Z;
  isActive : bool;
  createdAt : Z;
  updatedAt : Z
}.

Record TrainingData : Type := {
  uploadedBy : string;
  imagePath : string;
  t_designType : jsval;
  tags : list string;
  t_description : jsval;
  isProcessed : bool;
  t_createdAt : Z;
  t_updatedAt : Z
}.

(** [projectDoc.data()] as the object handed to [generateDesign]. *)
Definition projectData (p : Project) : jsval :=
  JObj [("name", p_name p);
        ("description", p_description p);
        ("userId", JStr (p_userId p));
        ("brandElements", p_brandElements p);
        ("designType", p_designType p);
        ("createdAt", JNum (p_createdAt p));
        ("updatedAt", JNum (p_updatedAt p))].

(** [db]: the four collections. *)
Record db : Type := {
  users : collection User;
  projects : collection Project;
  designs : collection Design;
  trainingData : collection TrainingData
}.

Definition with_users (f : collection User -> collection User) (s : db) : db :=
  {| users := f (users s); projects := projects s;
     designs := designs s; trainingData := trainingData s |}.

Definition with_projects (f : collection Project -> collection Project)
    (s : db) : db :=
  {| users := users s; projects := f (projects s);
     designs := designs s; trainingData := trainingData s |}.

Definition with_designs (f : collection Design -> collection Design)
    (s : db) : db :=
  {| users := users s; projects := projects s;
     designs := f (designs s); trainingData := trainingData s |}.

Definition with_trainingData
    (f : collection TrainingData -> collection TrainingData) (s : db) : db :=
  {| users := users s; projects := projects s;
     designs := designs s; trainingData := f (trainingData s) |}.

(** [s.split('/')]. *)
Fixpoint splitSlash (s : string) : list string :=
  match s with
  | EmptyString => [EmptyString]
  | String c rest =>
      if Ascii.eqb c "/"%char then EmptyString :: splitSlash rest
      else match splitSlash rest with
           | hd :: tl => String c hd :: tl
           | [] => [String c EmptyString]
           end
  end.

(** [path.indexOf('//') >= 0]. *)
Fixpoint hasDoubleSlash (s : string) : bool :=
  match s with
  | String a rest =>
      match rest with
      | String b _ =>
          (Ascii.eqb a "/"%char && Ascii.eqb b "/"%char) || hasDoubleSlash rest
      | EmptyString => false
      end
  | EmptyString => false
  end.

(** [collection.doc(x)]: the document of the collection the path [x]
    names.  [doc] throws unless [x] is a non-empty string without [//];
    it splits the path at the slashes, drops the empty segment a leading
    or a trailing slash leaves, and throws unless the segments name a
    document, that is unless their number is odd.  One segment is a
    document of the collection itself, and a read or write under a name
    that breaks the constraints on ids is refused; three or more name a
    document of a sub-collection, of which there is none.  [Rejected] is
    the throw (or the refusal), [Resolved None] a document that cannot
    exist, [Resolved (Some id)] the document [id] of the collection. *)
Definition docId (x : jsval) : outcome (option string) :=
  match x with
  | JStr path =>
      if (path =? "") || hasDoubleSlash path then Rejected
      else
        match filter (fun seg => negb (seg =? "")) (splitSlash path) with
        | [id] => if validId id then Resolved (Some id) else Rejected
        | segments =>
            if Nat.odd (List.length segments) then Resolved None
            else Rejected
        end
  | _ => Rejected
  end.

Definition isArray (v : jsval) : bool :=
  match v with
  | JArr _ => true
  | _ => false
  end.

(** The values Firestore accepts in a document it is asked to add and in
    the value of a query filter: no [undefined] at any depth, no empty
    field name, no array directly inside an array. *)
Fixpoint writable (v : jsval) : bool :=
  match v with
  | JUndefined => false
  | JNull | JBool _ | JNum _ | JStr _ => true
  | JArr items =>
      (fix all (l : list jsval) : bool :=
         match l with
         | [] => true
         | x :: l' => negb (isArray x) && writable x && all l'
         end) items
  | JObj fields =>
      (fix all (l : list (string * jsval)) : bool :=
         match l with
         | [] => true
         | (k, x) :: l' => negb (k =? "") && writable x && all l'
         end) fields
  end.

End Store.

(* ===================================================================== *)
(** ** Request pipeline and route handlers *)
(* ===================================================================== *)

Module Server.
Import Gen Store.

(** What a signed token carries. *)
Record claims : Type := {
  c_userId : string;
  c_role : string
}.

(** Third-party services the handlers are written against. *)
Record platform : Type := {
  (** [jwt.sign(claims, JWT_SECRET, ...)], with [JWT_SECRET] set *)
  jwt_sign : claims -> string;
  (** [jwt.verify(token, JWT_SECRET)]; [None] when it throws *)
  jwt_verify : string -> option claims;
  (** [bcrypt.hash(password, 12)] under the salt drawn for the call *)
  bcrypt_hash : string -> string -> string;
  (** [bcrypt.compare(password, hash)] *)
  bcrypt_compare : string -> string -> bool;
  (** [processAndSaveImage(buffer, filename, folder)]: the stored path, or
      the error it rethrows *)
  processAndSaveImage : string -> string -> string -> outcome string
}.

Inductive resbody : Type :=
| Message (message : string)
| AuthBody (message token id : string) (email firstName lastName : jsval)
    (role : string)
| ProjectBody (id : string) (p : Project)
| DesignsBody (ds : list (string * Design))
| DesignBody (id : string) (d : Design)
| GeneratedBody (message : string) (newVersions : list string)
    (totalVersions : Z) (provider : jsval)
| ProvidersBody (ps : list (string * bool))
| TrainingBody (message id : string) (t : TrainingData).

Record response : Type := {
  status : nat;
  payload : resbody
}.

Definition reply (code : nat) (b : resbody) : response :=
  {| status := code; payload := b |}.

Definition serverError : response := reply 500 (Message "Server error").

(** [s.replace(pat, rep)] for a string pattern: the first occurrence. *)
Fixpoint replaceFirst (pat rep s : string) : string :=
  if String.prefix pat s
  then rep ++ substring (String.length pat)
                        (String.length s - String.length pat) s
  else match s with
       | EmptyString => EmptyString
       | String c rest => String c (replaceFirst pat rep rest)
       end.

(** The [auth] middleware: either the response it sends, or the claims it
    stores on the request before calling [next()]. *)
Definition auth (P : platform) (authorization : option string)
  : response + claims :=
  match authorization with
  | None => inl (reply 401 (Message "No token, authorization denied"))
  | Some header =>
      let token := replaceFirst "Bearer " "" header in
      if token =? "" then
        inl (reply 401 (Message "No token, authorization denied"))
      else
        match jwt_verify P token with
        | Some decoded => inr decoded
        | None => inl (reply 401 (Message "Token is not valid"))
        end
  end.

(** *** Projects *)

Record CreateProjectBody : Type := {
  cp_name : jsval;
  cp_description : jsval;
  cp_brandElements : jsval;
  cp_designType : jsval
}.

Definition defaultBrandElements : jsval :=
  JObj [("colorPalette", JArr []); ("fonts", JArr [])].

(** [POST /api/projects], after [auth]. *)
Definition createProject (st : db) (caller : claims) (b : CreateProjectBody)
    (newId : string) (now : Z) : response * db :=
  let projectData :=
    {| p_name := cp_name b;
       p_description := cp_description b;
       p_userId := c_userId caller;
       p_brandElements :=
         if truthy (cp_brandElements b) then cp_brandElements b
         else defaultBrandElements;
       p_designType := cp_designType b;
       p_createdAt := now;
       p_updatedAt := now |} in
  if writable (p_name projectData) && writable (p_description projectData)
     && writable (p_brandElements projectData)
     && writable (p_designType projectData)
  then (reply 201 (ProjectBody newId projectData),
        with_projects (add newId projectData) st)
  else (serverError, st).

(** *** Designs *)

(** [GET /api/designs/project/:projectId], after [auth]. *)
Definition listDesigns (st : db) (caller : claims) (projectIdParam : string)
  : response :=
  let snapshot :=
    orderByDesc createdAt
      (where_ (fun d => userId d =? c_userId caller)
         (where_ (fun d => projectId d =? projectIdParam) (designs st))) in
  reply 200 (DesignsBody snapshot).

Record CreateDesignBody : Type := {
  cd_projectId : jsval;
  cd_content : jsval;
  cd_baseReferenceImage : jsval
}.

(** [POST /api/designs], after [auth].  The design keeps the posted
    [projectId] as it came. *)
Definition createDesign (st : db) (caller : claims) (b : CreateDesignBody)
    (newId : string) (now : Z) : response * db :=
  match docId (cd_projectId b), cd_projectId b with
  | Resolved None, _ => (reply 404 (Message "Project not found"), st)
  | Resolved (Some pid), JStr projectIdent =>
      let projectDoc := get pid (projects st) in
      let denied :=
        match projectDoc with
        | None => true
        | Some p => negb (p_userId p =? c_userId caller)
        end in
      if denied then (reply 404 (Message "Project not found"), st)
      else
        let designData :=
          {| projectId := projectIdent;
             userId := c_userId caller;
             content := if truthy (cd_content b) then cd_content b
                        else JObj [];
             baseReferenceImage := cd_baseReferenceImage b;
             generatedImages := [];
             currentVersion := 0;
             isActive := true;
             createdAt := now;
             updatedAt := now |} in
        if writable (content designData)
           && writable (baseReferenceImage designData)
        then (reply 201 (DesignBody newId designData),
              with_designs (add newId designData) st)
        else (serverError, st)
  | _, _ => (serverError, st)
  end.

(** The [count] field of a generate request: absent, [null], a boolean or
    an integer number.  (String, array and object counts are outside this
    type.) *)
Inductive count_field : Type :=
| CountAbsent
| CountNull
| CountBool (b : bool)
| CountNum (z : Z).

Record GenerateBody : Type := {
  g_count : count_field;
  g_provider : jsval
}.

(** [ToNumber], as used by [currentVersion + count]. *)
Definition toNumber (c : count_field) : Z :=
  match c with
  | CountAbsent => 3
  | CountNull => 0
  | CountBool b => if b then 1 else 0
  | CountNum z => z
  end.

(** [ToLength]: clamps to [0 .. 2^53 - 1]. *)
Definition toLength (c : count_field) : Z :=
  Z.min (Z.max (toNumber c) 0) (2 ^ 53 - 1).

(** [Array.from({ length: count }, f)]: the indices [0 .. len-1]; creating
    an array longer than [2^32 - 1] throws a [RangeError]. *)
Definition arrayFromLength (c : count_field) : outcome (list nat) :=
  let len := toLength c in
  if (len >? 2 ^ 32 - 1)%Z then Rejected
  else Resolved (seq 0 (Z.to_nat len)).

(** [Promise.all]: all values in order, or the rejection. *)
Fixpoint promiseAll {A : Type} (ps : list (outcome A)) : outcome (list A) :=
  match ps with
  | [] => Resolved []
  | p :: rest =>
      match p, promiseAll rest with
      | Resolved a, Resolved l => Resolved (a :: l)
      | _, _ => Rejected
      end
  end.

(** [const { count = 3, provider = 'openai' } = req.body]. *)
Definition countOrDefault (b : GenerateBody) : count_field :=
  match g_count b with CountAbsent => CountNum 3 | c => c end.

Definition providerOrDefault (b : GenerateBody) : jsval :=
  match g_provider b with JUndefined => JStr "openai" | p => p end.

(** The fields written by [update({ generatedImages, currentVersion,
    updatedAt })], computed from the snapshot [designData] read earlier. *)
Definition mergeGenerated (designData : Design) (imageUrls : list string)
    (count : count_field) (now : Z) (d : Design) : Design :=
  {| projectId := projectId d;
     userId := userId d;
     content := content d;
     baseReferenceImage := baseReferenceImage d;
     generatedImages := (generatedImages designData ++ imageUrls)%list;
     currentVersion := (currentVersion designData + toNumber count)%Z;
     isActive := isActive d;
     createdAt := createdAt d;
     updatedAt := now |}.

(** The fan-out: [Promise.all(Array.from({ length: count }, () =>
    generateDesign(projectData, designData.content, provider)))]. *)
Definition fanOut (svc : services) (project content provider : jsval)
    (count : count_field) : outcome (list string) :=
  idxs <- arrayFromLength count ;;
  promiseAll (map (generateDesign svc project content provider) idxs).

(** [POST /api/designs/:id/generate], after [auth]. *)
Definition generateVersions (svc : services) (st : db) (caller : claims)
    (id : string) (b : GenerateBody) (now : Z) : response * db :=
  let count := countOrDefault b in
  let provider := providerOrDefault b in
  match docId (JStr id) with
  | Rejected => (serverError, st)
  | Resolved None => (reply 404 (Message "Design not found"), st)
  | Resolved (Some did) =>
  match get did (designs st) with
  | None => (reply 404 (Message "Design not found"), st)
  | Some designData =>
      if negb (userId designData =? c_userId caller) then
        (reply 403 (Message "Access denied"), st)
      else
        match docId (JStr (projectId designData)) with
        | Rejected => (serverError, st)
        | Resolved None => (reply 404 (Message "Project not found"), st)
        | Resolved (Some pid) =>
            match get pid (projects st) with
            | None => (reply 404 (Message "Project not found"), st)
            | Some project =>
                match fanOut svc (projectData project) (content designData)
                        provider count with
                | Rejected => (serverError, st)
                | Resolved imageUrls =>
                    (reply 200
                       (GeneratedBody "New versions generated successfully"
                          imageUrls
                          (currentVersion designData + toNumber count)%Z
                          provider),
                     with_designs
                       (update did
                          (mergeGenerated designData imageUrls count now))
                       st)
                end
            end
        end
  end
  end.

(** *** Registration and login *)

Record RegisterBody : Type := {
  r_email : jsval;
  r_password : jsval;
  r_firstName : jsval;
  r_lastName : jsval;
  (** any further fields the caller put in the body, e.g. [role] *)
  r_other : list (string * jsval)
}.

(** [POST /api/auth/register].  The query by email throws on a value
    Firestore refuses, [bcrypt.hash] on a password that is not a string,
    [add] on a name Firestore refuses; each ends in the [catch]. *)
Definition register (P : platform) (st : db) (b : RegisterBody)
    (salt newId : string) (now : Z) : response * db :=
  if negb (writable (r_email b)) then (serverError, st) else
  let snapshot := where_ (fun u => jsEq (u_email u) (r_email b)) (users st) in
  match snapshot with
  | _ :: _ => (reply 400 (Message "User already exists"), st)
  | [] =>
      match r_password b with
      | JStr password =>
          let hashedPassword := bcrypt_hash P salt password in
          let userData :=
            {| u_email := r_email b;
               u_password := hashedPassword;
               u_firstName := r_firstName b;
               u_lastName := r_lastName b;
               u_role := "user";
               u_createdAt := now;
               u_updatedAt := now |} in
          if writable (u_firstName userData) && writable (u_lastName userData)
          then
            let token :=
              jwt_sign P {| c_userId := newId; c_role := u_role userData |} in
            (reply 201
               (AuthBody "User created successfully" token newId
                  (u_email userData) (u_firstName userData)
                  (u_lastName userData) (u_role userData)),
             with_users (add newId userData) st)
          else (serverError, st)
      | _ => (serverError, st)
      end
  end.

Record LoginBody : Type := {
  l_email : jsval;
  l_password : jsval
}.

(** [POST /api/auth/login].  The query by email throws on a value
    Firestore refuses, and [bcrypt.compare] on a password that is not a
    string; each ends in the [catch]. *)
Definition login (P : platform) (st : db) (b : LoginBody) : response :=
  if negb (writable (l_email b)) then serverError else
  let snapshot := where_ (fun u => jsEq (u_email u) (l_email b)) (users st) in
  match snapshot with
  | [] => reply 400 (Message "Invalid credentials")
  | (docIdent, userData) :: _ =>
      match l_password b with
      | JStr password =>
          if negb (bcrypt_compare P password (u_password userData)) then
            reply 400 (Message "Invalid credentials")
          else
            let token :=
              jwt_sign P
                {| c_userId := docIdent; c_role := u_role userData |} in
            reply 200
              (AuthBody "Login successful" token docIdent
                 (u_email userData) (u_firstName userData)
                 (u_lastName userData) (u_role userData))
      | _ => serverError
      end
  end.

(** *** Providers *)

(** [GET /api/ai/providers]. *)
Definition listProviders (e : env) : response :=
  reply 200
    (ProvidersBody [("openai", configured (OPENAI_API_KEY e));
                    ("gemini", configured (GEMINI_API_KEY e));
                    ("qwen", configured (QWEN_API_KEY e))]).

(** *** Training data (admin) *)

(** A file part of a multipart request. *)
Record FilePart : Type := {
  fieldname : string;
  size : Z;
  buffer : string
}.

Record UploadRequest : Type := {
  files : list FilePart;
  f_designType : jsval;
  f_tags : jsval;
  f_description : jsval
}.

(** [limits: { fileSize: 5 * 1024 * 1024 }] *)
Definition fileSizeLimit : Z := 5 * 1024 * 1024.

(** The [upload.single(field)] middleware (multer, memory storage): passes
    on at most one file, sent under [field] and within the size limit;
    any other file part makes it call [next(err)]. *)
Definition uploadSingle (field : string) (limit : Z) (parts : list FilePart)
  : outcome (option FilePart) :=
  match parts with
  | [] => Resolved None
  | [f] =>
      if (fieldname f =? field) && (size f <=? limit)%Z
      then Resolved (Some f) else Rejected
  | _ :: _ :: _ => Rejected
  end.

(** The white space [String.prototype.trim] strips (WhiteSpace and
    LineTerminator of ECMAScript), by the bytes of its UTF-8 encoding:
    one byte for U+0009..U+000D and U+0020, two for U+00A0, three for
    U+1680, U+2000..U+200A, U+2028, U+2029, U+202F, U+205F, U+3000 and
    U+FEFF. *)
Definition space1 (a : ascii) : bool :=
  let n := nat_of_ascii a in
  ((n =? 32) || ((9 <=? n) && (n <=? 13)))%nat.

Definition space2 (a b : ascii) : bool :=
  ((nat_of_ascii a =? 194) && (nat_of_ascii b =? 160))%nat.

Definition space3 (a b c : ascii) : bool :=
  let x := nat_of_ascii a in
  let y := nat_of_ascii b in
  let z := nat_of_ascii c in
  (((x =? 225) && (y =? 154) && (z =? 128))
   || ((x =? 226) && (y =? 128)
       && (((128 <=? z) && (z <=? 138)) || (z =? 168) || (z =? 169)
           || (z =? 175)))
   || ((x =? 226) && (y =? 129) && (z =? 159))
   || ((x =? 227) && (y =? 128) && (z =? 128))
   || ((x =? 239) && (y =? 187) && (z =? 191)))%nat.

(** The string after its first character, when that is white space. *)
Definition afterSpace (s : string) : option string :=
  match s with
  | String a r =>
      if space1 a then Some r
      else match r with
           | String b r2 =>
               if space2 a b then Some r2
               else match r2 with
                    | String c r3 => if space3 a b c then Some r3 else None
                    | EmptyString => None
                    end
           | EmptyString => None
           end
  | EmptyString => None
  end.

(** [String.prototype.trimStart]. *)
Fixpoint trimStart (s : string) : string :=
  match s with
  | String a r =>
      if space1 a then trimStart r
      else match r with
           | String b r2 =>
               if space2 a b then trimStart r2
               else match r2 with
                    | String c r3 => if space3 a b c then trimStart r3 else s
                    | EmptyString => s
                    end
           | EmptyString => s
           end
  | EmptyString => EmptyString
  end.

(** White space only. *)
Definition allSpace (s : string) : bool := trimStart s =? "".

(** [String.prototype.trimEnd]: cut where only white space follows. *)
Fixpoint trimEnd (s : string) : string :=
  match s with
  | EmptyString => EmptyString
  | String c rest =>
      if allSpace s then EmptyString else String c (trimEnd rest)
  end.

(** [String.prototype.trim]. *)
Definition trim (s : string) : string := trimEnd (trimStart s).

(** [s.split(',')]. *)
Fixpoint splitComma (s : string) : list string :=
  match s with
  | EmptyString => [EmptyString]
  | String c rest =>
      if Ascii.eqb c ","%char then EmptyString :: splitComma rest
      else match splitComma rest with
           | hd :: tl => String c hd :: tl
           | [] => [String c EmptyString]
           end
  end.

(** [tags ? tags.split(',').map(tag => tag.trim()) : []]. *)
Definition parseTags (tags : jsval) : outcome (list string) :=
  if truthy tags then
    match tags with
    | JStr s => Resolved (map trim (splitComma s))
    | _ => Rejected
    end
  else Resolved [].

(** The handler of [POST /api/admin/training-data], after [auth] and
    [upload.single('image')]. *)
Definition uploadTrainingData (P : platform) (st : db) (caller : claims)
    (file : option FilePart) (req : UploadRequest) (newId : string) (now : Z)
  : response * db :=
  if negb (c_role caller =? "super_admin") then
    (reply 403 (Message "Access denied. Super admin required."), st)
  else
    match file with
    | None => (reply 400 (Message "No image uploaded"), st)
    | Some f =>
        let filename := "training_" ++ string_of_Z now ++ ".jpg" in
        let stored :=
          path <- processAndSaveImage P (buffer f) filename "training" ;;
          ts <- parseTags (f_tags req) ;;
          Resolved
            {| uploadedBy := c_userId caller;
               imagePath := path;
               t_designType := f_designType req;
               tags := ts;
               t_description := f_description req;
               isProcessed := false;
               t_createdAt := now;
               t_updatedAt := now |} in
        match stored with
        | Rejected => (serverError, st)
        | Resolved t =>
            if writable (t_designType t) && writable (t_description t)
            then (reply 201
                    (TrainingBody "Training data uploaded successfully"
                       newId t),
                  with_trainingData (add newId t) st)
            else (serverError, st)
        end
    end.

(** *** Profile and project listing *)

(** [userDoc.data()]: a stored user as an object (timestamps as numbers). *)
Definition userFields (u : User) : list (string * jsval) :=
  [("email", u_email u);
   ("password", JStr (u_password u));
   ("firstName", u_firstName u);
   ("lastName", u_lastName u);
   ("role", JStr (u_role u));
   ("createdAt", JNum (u_createdAt u));
   ("updatedAt", JNum (u_updatedAt u))].

(** [delete obj[k]]. *)
Definition deleteKey (k : string) (fields : list (string * jsval))
  : list (string * jsval) :=
  filter (fun kv => negb (fst kv =? k)) fields.

(** A JSON answer: [res.status(code).json(body)]. *)
Record jsonReply : Type := {
  j_status : nat;
  j_body : jsval
}.

Definition jsonMessage (code : nat) (m : string) : jsonReply :=
  {| j_status := code; j_body := JObj [("message", JStr m)] |}.

(** [GET /api/auth/me], after [auth]: [{ id: userDoc.id, ...userData }]
    once [password] is deleted (user documents have no [id] field).
    [req.userId] is the id a verified token carries, a document id the
    server signed, or nothing: [doc] throws on the empty path. *)
Definition getMe (st : db) (caller : claims) : jsonReply :=
  let uid := c_userId caller in
  if uid =? "" then jsonMessage 500 "Server error"
  else
    match get uid (users st) with
    | None => jsonMessage 404 "User not found"
    | Some userData =>
        {| j_status := 200;
           j_body :=
             JObj (("id", JStr uid)
                     :: deleteKey "password" (userFields userData)) |}
    end.

(** [GET /api/projects], after [auth]: the list sent with status 200. *)
Definition listProjects (st : db) (caller : claims)
  : list (string * Project) :=
  orderByDesc p_createdAt
    (where_ (fun p => p_userId p =? c_userId caller) (projects st)).

(** *** Routes: middleware chain, then handler *)

(** The final error-handling middleware. *)
Definition errorMiddleware : response :=
  reply 500 (Message "Something went wrong!").

Definition route_listDesigns (P : platform) (st : db)
    (authorization : option string) (projectIdParam : string) : response :=
  match auth P authorization with
  | inl denied => denied
  | inr caller => listDesigns st caller projectIdParam
  end.

Definition route_createProject (P : platform) (st : db)
    (authorization : option string) (b : CreateProjectBody)
    (newId : string) (now : Z) : response * db :=
  match auth P authorization with
  | inl denied => (denied, st)
  | inr caller => createProject st caller b newId now
  end.

Definition route_createDesign (P : platform) (st : db)
    (authorization : option string) (b : CreateDesignBody)
    (newId : string) (now : Z) : response * db :=
  match auth P authorization with
  | inl denied => (denied, st)
  | inr caller => createDesign st caller b newId now
  end.

Definition route_generate (P : platform) (svc : services) (st : db)
    (authorization : option string) (id : string) (b : GenerateBody)
    (now : Z) : response * db :=
  match auth P authorization with
  | inl denied => (denied, st)
  | inr caller => generateVersions svc st caller id b now
  end.

Definition route_uploadTrainingData (P : platform) (st : db)
    (authorization : option string) (req : UploadRequest)
    (newId : string) (now : Z) : response * db :=
  match auth P authorization with
  | inl denied => (denied, st)
  | inr caller =>
      match uploadSingle "image" fileSizeLimit (files req) with
      | Rejected => (errorMiddleware, st)
      | Resolved file => uploadTrainingData P st caller file req newId now
      end
  end.

Definition route_getMe (P : platform) (st : db)
    (authorization : option string) : response + jsonReply :=
  match auth P authorization with
  | inl denied => inl denied
  | inr caller => inr (getMe st caller)
  end.

Definition route_listProjects (P : platform) (st : db)
    (authorization : option string) : response + list (string * Project) :=
  match auth P authorization with
  | inl denied => inl denied
  | inr caller => inr (listProjects st caller)
  end.

End Server.

(* ===================================================================== *)
(** ** Properties of the data model, and sample data *)
(* ===================================================================== *)

Module Model.
Import Gen Store Server.

(** The [Design] invariant: the version counter is the number of
    generated images. *)
Definition versionMatches (d : Design) : Prop :=
  currentVersion d = Z.of_nat (List.length (generatedImages d)).

(** Every stored design points at a stored project: its [projectId] is
    a path to one. *)
Definition consistent (st : db) : Prop :=
  forall id d,
    get id (designs st) = Some d ->
    projectId d <> "" /\
    exists pid p,
      docId (JStr (projectId d)) = Resolved (Some pid) /\
      get pid (projects st) = Some p.

(** Brand elements as the [BrandElements] interface declares them. *)
Definition brandElementsOf (colors fonts : list string) : jsval :=
  JObj [("colorPalette", JArr (map JStr colors));
        ("fonts", JArr (map JStr fonts))].

(** Content as the [DesignContent] interface declares it: string fields,
    each optional. *)
Definition contentOf (fields : list (string * string)) : jsval :=
  JObj (map (fun kv => (fst kv, JStr (snd kv))) fields).

(** Every stored user has the least-privileged role. *)
Definition rolesAreUser (st : db) : Prop :=
  forall id u, In (id, u) (users st) -> u_role u = "user".


(** A design's [userId] is a copy of its project's owner. *)
Definition ownerCopied (st : db) : Prop :=
  forall id d pid p,
    get id (designs st) = Some d ->
    docId (JStr (projectId d)) = Resolved (Some pid) ->
    get pid (projects st) = Some p ->
    userId d = p_userId p.

(** Newest first: keys in non-increasing order. *)
Definition newestFirst {A : Type} (key : A -> Z) (l : collection A) : Prop :=
  StronglySorted (fun a b => (key (snd b) <= key (snd a))%Z) l.

(** No comma occurs in the string. *)
Fixpoint commaFree (s : string) : bool :=
  match s with
  | EmptyString => true
  | String c rest => negb (Ascii.eqb c ","%char) && commaFree rest
  end.

Definition emptyDb : db :=
  {| users := []; projects := []; designs := []; trainingData := [] |}.

(** One state-changing request served by the API. *)
Inductive step (P : platform) (svc : services) (st : db) : db -> Prop :=
| step_register b salt newId now :
    step P svc st (snd (register P st b salt newId now))
| step_createProject authorization b newId now :
    step P svc st (snd (route_createProject P st authorization b newId now))
| step_createDesign authorization b newId now :
    step P svc st (snd (route_createDesign P st authorization b newId now))
| step_generate authorization id b now :
    step P svc st (snd (route_generate P svc st authorization id b now))
| step_upload authorization req newId now :
    step P svc st
      (snd (route_uploadTrainingData P st authorization req newId now)).

(** The stores the API can build from the empty database. *)
Inductive reachable (P : platform) (svc : services) : db -> Prop :=
| reach_empty : reachable P svc emptyDb
| reach_step st st' :
    reachable P svc st -> step P svc st st' -> reachable P svc st'.

(** [s || fallback] on strings. *)
Definition textOr (fallback s : string) : string :=
  if s =? "" then fallback else s.

(** The value of an optional string field, empty when absent. *)
Fixpoint fieldOf (k : string) (fields : list (string * string)) : string :=
  match fields with
  | [] => ""
  | (k', v) :: rest => if k =? k' then v else fieldOf k rest
  end.

(** The prompt template, filled in. *)
Definition promptText (designType colors fonts title copy description cta
    footer : string) : string :=
  "Create a professional " ++ designType ++ " design. " ++ nl ++
  "    Colors: " ++ colors ++ nl ++
  "    Fonts: " ++ fonts ++ nl ++
  "    Title: " ++ title ++ nl ++
  "    Copy: " ++ copy ++ nl ++
  "    Description: " ++ description ++ nl ++
  "    CTA: " ++ cta ++ nl ++
  "    Footer: " ++ footer ++ nl ++
  "    Make it modern, professional, and visually appealing.".

(** A URL of the placeholder image service. *)
Definition isPlaceholder (url : string) : bool :=
  String.prefix "https://via.placeholder.com/1024x1024/" url.

(** One request, a generate request being admitted only with a count
    that is absent, [null], a boolean or a non-negative integer. *)
Inductive naturalStep (P : platform) (svc : services) (st : db)
  : db -> Prop :=
| nstep_register b salt newId now :
    naturalStep P svc st (snd (register P st b salt newId now))
| nstep_createProject authorization b newId now :
    naturalStep P svc st
      (snd (route_createProject P st authorization b newId now))
| nstep_createDesign authorization b newId now :
    naturalStep P svc st
      (snd (route_createDesign P st authorization b newId now))
| nstep_generate authorization id b now :
    (0 <= toNumber (countOrDefault b))%Z ->
    naturalStep P svc st (snd (route_generate P svc st authorization id b now))
| nstep_upload authorization req newId now :
    naturalStep P svc st
      (snd (route_uploadTrainingData P st authorization req newId now)).

Inductive naturallyReachable (P : platform) (svc : services) : db -> Prop :=
| nreach_empty : naturallyReachable P svc emptyDb
| nreach_step st st' :
    naturallyReachable P svc st -> naturalStep P svc st st' ->
    naturallyReachable P svc st'.


End Model.

Module Sample.
Import Gen Store Server.

Definition alice : claims := {| c_userId := "alice"; c_role := "user" |}.
Definition bob : claims := {| c_userId := "bob"; c_role := "user" |}.
Definition root : claims := {| c_userId := "root"; c_role := "super_admin" |}.

(** A toy instance of the third-party services. *)
Definition toyPlatform : platform :=
  {| jwt_sign := fun c => c_userId c ++ "." ++ c_role c;
     jwt_verify := fun t =>
       if t =? "alice.user" then Some alice
       else if t =? "bob.user" then Some bob
       else if t =? "root.super_admin" then Some root
       else None;
     bcrypt_hash := fun _ pw => "$2a$12$" ++ pw;
     bcrypt_compare := fun pw h => h =? "$2a$12$" ++ pw;
     processAndSaveImage := fun _ filename folder =>
       Resolved ("uploads/" ++ folder ++ "/" ++ filename) |}.

Definition aliceHeader : option string := Some "Bearer alice.user".
Definition bobHeader : option string := Some "Bearer bob.user".

(** No provider key is set. *)
Definition noKeys : env :=
  {| OPENAI_API_KEY := None; GEMINI_API_KEY := None; QWEN_API_KEY := None |}.

Definition qwenKeyOnly : env :=
  {| OPENAI_API_KEY := None; GEMINI_API_KEY := None;
     QWEN_API_KEY := Some "sk-qwen" |}.

Definition deadClient : openai_client := fun _ _ => ApiThrew.

Definition offline : services := initServices noKeys deadClient.

Definition banner : Project :=
  {| p_name := JStr "Sale Banner";
     p_description := JStr "";
     p_userId := "alice";
     p_brandElements := defaultBrandElements;
     p_designType := JStr "social_media";
     p_createdAt := 10;
     p_updatedAt := 10 |}.

(** A project whose colour palette was posted as a string. *)
Definition malformedBrand : jsval :=
  JObj [("colorPalette", JStr "red"); ("fonts", JArr [])].

Definition malformedProjectBody : CreateProjectBody :=
  {| cp_name := JStr "Sale Banner";
     cp_description := JStr "";
     cp_brandElements := malformedBrand;
     cp_designType := JStr "social_media" |}.

Definition malformedProject : jsval :=
  JObj [("designType", JStr "social_media");
        ("brandElements", malformedBrand)].

Definition offer : Design :=
  {| projectId := "p1";
     userId := "alice";
     content := JObj [("title", JStr "50% Off")];
     baseReferenceImage := JNull;
     generatedImages := [];
     currentVersion := 0;
     isActive := true;
     createdAt := 20;
     updatedAt := 20 |}.

(** The prompt [generateDesign] builds for [offer] in [banner]. *)
Definition offerPrompt : string :=
  Eval vm_compute in
    match buildPrompt (projectData banner) (content offer) with
    | Resolved p => p
    | Rejected => ""
    end.

Definition offerV2 : Design :=
  {| projectId := "p1";
     userId := "alice";
     content := JObj [("title", JStr "50% Off")];
     baseReferenceImage := JNull;
     generatedImages := ["https://img/1"; "https://img/2"];
     currentVersion := 2;
     isActive := true;
     createdAt := 21;
     updatedAt := 22 |}.

Definition shop : db :=
  {| users := [];
     projects := [("p1", banner)];
     designs := [("d1", offer); ("d2", offerV2)];
     trainingData := [] |}.

(** A design posted under project [p1]. *)
Definition foreignDesignBody : CreateDesignBody :=
  {| cd_projectId := JStr "p1";
     cd_content := JObj [];
     cd_baseReferenceImage := JNull |}.

Definition bigImage : FilePart :=
  {| fieldname := "image"; size := 6 * 1024 * 1024; buffer := "..." |}.

Definition smallImage : FilePart :=
  {| fieldname := "image"; size := 1024; buffer := "..." |}.

Definition uploadOf (parts : list FilePart) : UploadRequest :=
  {| files := parts;
     f_designType := JStr "print";
     f_tags := JStr "poster, retro";
     f_description := JStr "" |}.

(** U+00A0, the no-break space, in UTF-8, and a tags field using it. *)
Definition nbsp : string :=
  String (ascii_of_nat 194) (String (ascii_of_nat 160) EmptyString).

Definition spacedTags : string := "x" ++ nbsp ++ ", y" ++ nbsp.

Definition newcomer : RegisterBody :=
  {| r_email := JStr "alice@x.com";
     r_password := JStr "s3cret";
     r_firstName := JStr "Alice";
     r_lastName := JStr "A";
     r_other := [("role", JStr "super_admin")] |}.

(** A project posted without brand elements, a design posted under it,
    and the stores these two requests build from the empty database. *)
Definition aliceProjectBody : CreateProjectBody :=
  {| cp_name := JStr "Sale Banner";
     cp_description := JStr "";
     cp_brandElements := JUndefined;
     cp_designType := JStr "social_media" |}.

Definition offerBody : CreateDesignBody :=
  {| cd_projectId := JStr "p1";
     cd_content := JObj [("title", JStr "50% Off")];
     cd_baseReferenceImage := JNull |}.

Definition afterProject : db :=
  snd (route_createProject toyPlatform Model.emptyDb aliceHeader
         aliceProjectBody "p1" 10).

Definition afterDesign : db :=
  snd (route_createDesign toyPlatform afterProject aliceHeader offerBody
         "d1" 20).

End Sample.

(* ===================================================================== *)
(** ** Lemmas on the store *)
(* ===================================================================== *)

Module StoreFacts.
Import Store.

Section Collection.
Context {A : Type}.
Implicit Types (c : collection A) (id : string).

Lemma get_nil id : get id ([] : collection A) = None.
Proof. unfold get. destruct (validId id); reflexivity. Qed.

Lemma get_valid id c (d : A) : get id c = Some d -> validId id = true.
Proof. unfold get. destruct (validId id); [reflexivity|discriminate]. Qed.

Lemma get_nonempty id c (d : A) : get id c = Some d -> id <> "".
Proof. intros H E. subst id. discriminate H. Qed.

Lemma find_update id (f : A -> A) c :
  find id (update id f c) = option_map f (find id c).
Proof.
  induction c as [|[k d] rest IH]; simpl; [reflexivity|].
  destruct (k =? id) eqn:E; simpl; rewrite E; [reflexivity|exact IH].
Qed.

Lemma find_update_other id id' (f : A -> A) c :
  id' <> id -> find id' (update id f c) = find id' c.
Proof.
  intros Hne. induction c as [|[k d] rest IH]; simpl; [reflexivity|].
  destruct (k =? id) eqn:E; simpl.
  - apply String.eqb_eq in E. subst k.
    destruct (id =? id') eqn:E'; [|reflexivity].
    apply String.eqb_eq in E'. congruence.
  - destruct (k =? id'); [reflexivity|exact IH].
Qed.

Lemma find_add id newId (d : A) c :
  find id (add newId d c) =
  match find id c with
  | Some x => Some x
  | None => if newId =? id then Some d else None
  end.
Proof.
  unfold add. induction c as [|[k x] rest IH]; simpl; [reflexivity|].
  destruct (k =? id); [reflexivity|exact IH].
Qed.

Lemma get_update id (f : A -> A) c :
  get id (update id f c) = option_map f (get id c).
Proof.
  unfold get. destruct (validId id); [apply find_update|reflexivity].
Qed.

Lemma get_update_other id id' (f : A -> A) c :
  id' <> id -> get id' (update id f c) = get id' c.
Proof.
  intros Hne. unfold get.
  destruct (validId id'); [apply find_update_other; exact Hne|reflexivity].
Qed.

Lemma get_add id newId (d : A) c :
  get id (add newId d c) =
  match get id c with
  | Some x => Some x
  | None => if validId id && (newId =? id) then Some d else None
  end.
Proof.
  unfold get. destruct (validId id); [apply find_add|reflexivity].
Qed.

Lemma get_add_keeps id newId (d x : A) c :
  get id c = Some x -> get id (add newId d c) = Some x.
Proof. intros H. rewrite get_add, H. reflexivity. Qed.

(** A document read after an [add] was there before, or is the one
    added. *)
Lemma get_add_inv id newId (d x : A) c :
  get id (add newId d c) = Some x ->
  get id c = Some x \/ (get id c = None /\ newId = id /\ x = d).
Proof.
  rewrite get_add. destruct (get id c) as [y|]; [left; assumption|].
  destruct (validId id); simpl; [|discriminate].
  destruct (newId =? id) eqn:E; [|discriminate].
  intros H. inversion H. apply String.eqb_eq in E. right. repeat split; assumption.
Qed.

Lemma get_add_fresh newId (d : A) c :
  validId newId = true -> get newId c = None ->
  get newId (add newId d c) = Some d.
Proof.
  intros Hv Hn. rewrite get_add, Hn, Hv, String.eqb_refl. reflexivity.
Qed.

Lemma where_add (p : A -> bool) newId (d : A) c :
  where_ p (add newId d c) =
  (where_ p c ++ (if p d then [(newId, d)] else []))%list.
Proof.
  unfold where_, add. rewrite filter_app. simpl.
  destruct (p d); reflexivity.
Qed.

Lemma where_nil_iff (p : A -> bool) c :
  where_ p c = [] <-> forall id d, In (id, d) c -> p d = false.
Proof.
  unfold where_. induction c as [|[k x] rest IH]; simpl.
  - split; [intros _ id d []|reflexivity].
  - destruct (p x) eqn:E; split.
    + discriminate.
    + intros H. specialize (H k x (or_introl eq_refl)). congruence.
    + intros H id d [Heq|Hin]; [inversion Heq; subst; exact E|].
      apply (proj1 IH H id d Hin).
    + intros H. apply IH. intros id d Hin. apply (H id d). right. exact Hin.
Qed.

Lemma In_insertDesc (key : A -> Z) x y c :
  In x (insertDesc key y c) <-> x = y \/ In x c.
Proof.
  induction c as [|z rest IH]; simpl.
  - intuition.
  - destruct (key (snd z) <? key (snd y))%Z; simpl; [intuition|].
    rewrite IH. intuition.
Qed.

Lemma In_orderByDesc (key : A -> Z) x c :
  In x (orderByDesc key c) <-> In x c.
Proof.
  unfold orderByDesc. induction c as [|y rest IH]; simpl; [reflexivity|].
  rewrite In_insertDesc, IH. intuition.
Qed.

Lemma orderByDesc_nil (key : A -> Z) : orderByDesc key [] = [].
Proof. reflexivity. Qed.

Lemma In_where (p : A -> bool) x c :
  In x (where_ p c) <-> In x c /\ p (snd x) = true.
Proof. unfold where_. apply filter_In. Qed.

End Collection.

Lemma splitSlash_cons (s : string) : exists hd tl, splitSlash s = hd :: tl.
Proof.
  induction s as [|c rest [hd [tl IH]]]; simpl; [eauto|].
  destruct (Ascii.eqb c "/"); [eauto|]. rewrite IH. eauto.
Qed.

Lemma splitSlash_plain (s : string) : hasSlash s = false -> splitSlash s = [s].
Proof.
  induction s as [|c rest IH]; simpl; [reflexivity|].
  destruct (Ascii.eqb c "/"); simpl; [discriminate|].
  intros H. rewrite (IH H). reflexivity.
Qed.

Lemma splitSlash_single (s x : string) : splitSlash s = [x] -> s = x.
Proof.
  revert x. induction s as [|c rest IH]; simpl; intros x H.
  - inversion H. reflexivity.
  - destruct (splitSlash_cons rest) as [hd [tl Hs]]. rewrite Hs in *.
    destruct (Ascii.eqb c "/"); [discriminate|].
    inversion H; subst. rewrite (IH hd eq_refl). reflexivity.
Qed.

Lemma hasDoubleSlash_plain (s : string) :
  hasSlash s = false -> hasDoubleSlash s = false.
Proof.
  induction s as [|a rest IH]; [reflexivity|].
  cbn [hasSlash]. intros H. apply orb_false_elim in H. destruct H as [Ha Hr].
  cbn [hasDoubleSlash]. destruct rest as [|b rest']; [reflexivity|].
  rewrite Ha. apply (IH Hr).
Qed.

(** A document id is a path to that document. *)
Lemma docId_valid (id : string) :
  validId id = true -> docId (JStr id) = Resolved (Some id).
Proof.
  intros Hv. unfold docId. pose proof Hv as Hv'. unfold validId in Hv'.
  repeat (apply andb_prop in Hv'; destruct Hv' as [Hv' ?]).
  assert (Hs : hasSlash id = false)
    by (destruct (hasSlash id); [discriminate|reflexivity]).
  rewrite (hasDoubleSlash_plain _ Hs), (splitSlash_plain _ Hs).
  cbn [filter]. destruct (id =? ""); [discriminate|].
  cbn [orb negb]. rewrite Hv. reflexivity.
Qed.

Lemma docId_of_get {A : Type} id (c : collection A) d :
  get id c = Some d -> docId (JStr id) = Resolved (Some id).
Proof. intros H. apply docId_valid. apply (get_valid _ _ _ H). Qed.

(** What [doc] resolves to is a document id, and names itself. *)
Lemma docId_some x id :
  docId x = Resolved (Some id) ->
  validId id = true /\ docId (JStr id) = Resolved (Some id) /\
  exists path, x = JStr path.
Proof.
  unfold docId. destruct x as [| | | |path| |]; try discriminate.
  destruct (_ || _); [discriminate|].
  destruct (filter _ (splitSlash path)) as [|seg [|seg2 rest]].
  - destruct (Nat.odd _); discriminate.
  - destruct (validId seg) eqn:Hv; [|discriminate].
    intros H. inversion H; subst seg.
    split; [exact Hv|]. split; [apply docId_valid; exact Hv|eauto].
  - destruct (Nat.odd _); discriminate.
Qed.

Lemma splitSlash_app (a c : string) :
  splitSlash (a ++ "/" ++ c) = (splitSlash a ++ splitSlash c)%list.
Proof.
  induction a as [|x a IH]; [reflexivity|].
  simpl in IH. simpl. rewrite IH.
  destruct (Ascii.eqb x "/"); [reflexivity|].
  destruct (splitSlash_cons a) as [hd [tl ->]]. reflexivity.
Qed.

Lemma hasDoubleSlash_join (a c : string) :
  hasSlash a = false -> hasSlash c = false ->
  hasDoubleSlash (a ++ "/" ++ c) = false.
Proof.
  intros Ha Hc. induction a as [|x a IH].
  - cbn [String.append hasDoubleSlash]. destruct c as [|y c]; [reflexivity|].
    pose proof (hasDoubleSlash_plain _ Hc) as Hd.
    cbn [hasSlash] in Hc. apply orb_false_elim in Hc. destruct Hc as [Hy _].
    rewrite Hy, Hd. reflexivity.
  - cbn [hasSlash] in Ha. apply orb_false_elim in Ha. destruct Ha as [Hx Ha].
    specialize (IH Ha).
    change (String x a ++ "/" ++ c) with (String x (a ++ "/" ++ c)).
    cbn [hasDoubleSlash]. rewrite Hx.
    destruct (a ++ "/" ++ c); [reflexivity|exact IH].
Qed.

(** [doc] refuses a path of two segments: it names a collection. *)
Lemma docId_two_segments (a c : string) :
  a <> "" -> c <> "" -> hasSlash a = false -> hasSlash c = false ->
  docId (JStr (a ++ "/" ++ c)) = Rejected.
Proof.
  intros Ha Hc Hsa Hsc. unfold docId.
  rewrite (hasDoubleSlash_join a c Hsa Hsc), splitSlash_app,
    (splitSlash_plain _ Hsa), (splitSlash_plain _ Hsc).
  apply String.eqb_neq in Ha, Hc. cbn [app filter].
  rewrite Ha, Hc. cbn [negb].
  destruct (a ++ "/" ++ c =? ""); reflexivity.
Qed.

Lemma jsEq_eq (a b : jsval) : jsEq a b = true <-> a = b.
Proof.
  revert b. induction a using jsval_induction; intros b'.
  - destruct b'; simpl; split; congruence.
  - destruct b'; simpl; split; congruence.
  - destruct b'; simpl; split; try congruence.
    + intros H. apply Bool.eqb_prop in H. congruence.
    + intros H. inversion H. apply Bool.eqb_reflx.
  - destruct b'; simpl; split; try congruence.
    + intros H. apply Z.eqb_eq in H. congruence.
    + intros H. inversion H. apply Z.eqb_refl.
  - destruct b'; simpl; split; try congruence.
    + intros H. apply String.eqb_eq in H. congruence.
    + intros H. inversion H. apply String.eqb_refl.
  - destruct b' as [| | | | |ys|]; simpl; try (split; congruence).
    revert ys. induction H as [|x l Hx _ IH]; intros [|y ys].
    + split; reflexivity.
    + split; discriminate.
    + split; discriminate.
    + rewrite andb_true_iff, Hx, IH. split.
      * intros [-> H]. inversion H. reflexivity.
      * intros H. inversion H. split; reflexivity.
  - destruct b' as [| | | | | |gs]; simpl; try (split; congruence).
    revert gs. induction H as [|[k x] l Hx _ IH]; intros [|[k' y] gs].
    + split; reflexivity.
    + split; discriminate.
    + split; discriminate.
    + simpl in Hx. rewrite !andb_true_iff, String.eqb_eq, Hx, IH. split.
      * intros [[-> ->] H]. inversion H. reflexivity.
      * intros H. inversion H. repeat split; reflexivity.
Qed.

Lemma jsEq_refl (a : jsval) : jsEq a a = true.
Proof. apply jsEq_eq. reflexivity. Qed.

Lemma jsEq_neq (a b : jsval) : a <> b -> jsEq a b = false.
Proof.
  intros H. destruct (jsEq a b) eqn:E; [|reflexivity].
  apply jsEq_eq in E. contradiction.
Qed.

End StoreFacts.

(* ===================================================================== *)
(** ** Lemmas on generation and on the generate handler *)
(* ===================================================================== *)

Module GenerateFacts.
Import Gen Store Server Model StoreFacts.

Lemma promiseAll_length {A : Type} (ps : list (outcome A)) (l : list A) :
  promiseAll ps = Resolved l -> List.length l = List.length ps.
Proof.
  revert l. induction ps as [|p rest IH]; simpl; intros l H.
  - inversion H. reflexivity.
  - destruct p as [a|]; [|discriminate].
    destruct (promiseAll rest) as [l'|]; [|discriminate].
    inversion H. simpl. f_equal. apply IH. reflexivity.
Qed.

Lemma promiseAll_all_resolved {A B : Type} (f : B -> outcome A) (xs : list B) :
  (forall x, In x xs -> exists a, f x = Resolved a) ->
  exists l, promiseAll (map f xs) = Resolved l.
Proof.
  induction xs as [|x rest IH]; simpl; intros H.
  - eexists. reflexivity.
  - destruct (H x (or_introl eq_refl)) as [a Ha].
    destruct IH as [l Hl]; [intros y Hy; apply H; right; exact Hy|].
    rewrite Ha, Hl. eexists. reflexivity.
Qed.

(** The number of calls the fan-out issues. *)
Lemma arrayFromLength_length c idxs :
  arrayFromLength c = Resolved idxs ->
  List.length idxs = Z.to_nat (toLength c) /\ idxs = seq 0 (Z.to_nat (toLength c)).
Proof.
  unfold arrayFromLength.
  destruct (toLength c >? 2 ^ 32 - 1)%Z; [discriminate|].
  intros H. inversion H. rewrite length_seq. split; reflexivity.
Qed.

Lemma fanOut_length svc project content provider c urls :
  fanOut svc project content provider c = Resolved urls ->
  List.length urls = Z.to_nat (toLength c).
Proof.
  unfold fanOut, bind.
  destruct (arrayFromLength c) as [idxs|] eqn:E; [|discriminate].
  intros H. apply promiseAll_length in H.
  rewrite length_map in H. rewrite H.
  apply (arrayFromLength_length _ _ E).
Qed.

(** Once the prompt is built and the provider is a string, a call
    resolves: everything after the template literal sits inside [try]. *)
Lemma generateDesign_resolves svc project content p k prompt :
  buildPrompt project content = Resolved prompt ->
  exists url, generateDesign svc project content (JStr p) k = Resolved url.
Proof.
  intros Hp. unfold generateDesign. rewrite Hp.
  cbv beta iota delta [bind].
  destruct (dispatch svc prompt (JStr p) k); simpl; eexists; reflexivity.
Qed.

Lemma joinWith_strings sep (l : list string) :
  exists s, joinWith toStr sep (map JStr l) = Resolved s.
Proof.
  induction l as [|x rest [s IH]]; [eexists; reflexivity|].
  destruct rest as [|y rest]; [eexists; reflexivity|].
  change (joinWith toStr sep (map JStr (x :: y :: rest)))
    with (sr <- joinWith toStr sep (map JStr (y :: rest)) ;;
          Resolved (x ++ sep ++ sr)).
  rewrite IH. eexists. reflexivity.
Qed.

Lemma contentText_typed fields k :
  exists s, contentText (contentOf fields) k = Resolved s.
Proof.
  unfold contentText, contentOf, member.
  induction fields as [|[k' v] rest IH]; [eexists; reflexivity|].
  simpl. destruct (k =? k'); [|exact IH].
  simpl. destruct (negb (v =? "")); eexists; reflexivity.
Qed.

Lemma brandList_typed (p : Project) colors fonts :
  p_brandElements p = brandElementsOf colors fonts ->
  (exists s, brandList (projectData p) "colorPalette" "default" = Resolved s) /\
  (exists s, brandList (projectData p) "fonts" "modern" = Resolved s).
Proof.
  intros H. unfold brandList, projectData. simpl. rewrite H. simpl.
  destruct (joinWith_strings ", " colors) as [sc Hc].
  destruct (joinWith_strings ", " fonts) as [sf Hf].
  rewrite Hc, Hf. simpl. split; eexists; reflexivity.
Qed.

(** For a project and a content shaped as the interfaces declare, the
    prompt is built. *)
Lemma buildPrompt_typed (p : Project) dt colors fonts fields :
  p_designType p = JStr dt ->
  p_brandElements p = brandElementsOf colors fonts ->
  exists prompt,
    buildPrompt (projectData p) (contentOf fields) = Resolved prompt.
Proof.
  intros Hdt Hbe. unfold buildPrompt.
  destruct (brandList_typed p colors fonts Hbe) as [[sc Hc] [sf Hf]].
  rewrite Hc, Hf.
  destruct (contentText_typed fields "title") as [s1 H1].
  destruct (contentText_typed fields "copy") as [s2 H2].
  destruct (contentText_typed fields "description") as [s3 H3].
  destruct (contentText_typed fields "cta") as [s4 H4].
  destruct (contentText_typed fields "footerContent") as [s5 H5].
  rewrite H1, H2, H3, H4, H5.
  unfold projectData at 1. simpl member. rewrite Hdt. simpl.
  eexists. reflexivity.
Qed.

(** What a 200 answer of the generate handler tells. *)
Lemma generateVersions_ok svc st caller id b now resp st' :
  generateVersions svc st caller id b now = (resp, st') ->
  status resp = 200 ->
  exists did d pid project urls,
    docId (JStr id) = Resolved (Some did) /\
    get did (designs st) = Some d /\
    userId d = c_userId caller /\
    docId (JStr (projectId d)) = Resolved (Some pid) /\
    get pid (projects st) = Some project /\
    fanOut svc (projectData project) (content d)
      (providerOrDefault b) (countOrDefault b) = Resolved urls /\
    resp = reply 200
             (GeneratedBody "New versions generated successfully" urls
                (currentVersion d + toNumber (countOrDefault b))%Z
                (providerOrDefault b)) /\
    st' = with_designs
            (update did (mergeGenerated d urls (countOrDefault b) now)) st.
Proof.
  unfold generateVersions. intros H Hs.
  destruct (docId (JStr id)) as [[did|]|] eqn:Hdoc;
    [|inversion H; subst; discriminate|inversion H; subst; discriminate].
  destruct (get did (designs st)) as [d|] eqn:Hd;
    [|inversion H; subst; discriminate].
  destruct (userId d =? c_userId caller) eqn:Hu; cbn [negb] in H;
    [|inversion H; subst; discriminate].
  destruct (docId (JStr (projectId d))) as [[pid|]|] eqn:Hdoc';
    [|inversion H; subst; discriminate|inversion H; subst; discriminate].
  destruct (get pid (projects st)) as [project|] eqn:Hpr;
    [|inversion H; subst; discriminate].
  destruct (fanOut _ _ _ _ _) as [urls|] eqn:Hf;
    [|inversion H; subst; discriminate].
  inversion H; subst. exists did, d, pid, project, urls.
  apply String.eqb_eq in Hu.
  repeat split; assumption.
Qed.

(** The generate handler answers 200 as soon as its three look-ups pass
    and the fan-out resolves. *)
Lemma generateVersions_run_at svc st caller id b now did d pid project urls :
  docId (JStr id) = Resolved (Some did) ->
  get did (designs st) = Some d ->
  userId d = c_userId caller ->
  docId (JStr (projectId d)) = Resolved (Some pid) ->
  get pid (projects st) = Some project ->
  fanOut svc (projectData project) (content d)
    (providerOrDefault b) (countOrDefault b) = Resolved urls ->
  generateVersions svc st caller id b now =
  (reply 200
     (GeneratedBody "New versions generated successfully" urls
        (currentVersion d + toNumber (countOrDefault b))%Z
        (providerOrDefault b)),
   with_designs (update did (mergeGenerated d urls (countOrDefault b) now)) st).
Proof.
  intros Hdoc Hd Hu Hdoc' Hpr Hf. unfold generateVersions.
  rewrite Hdoc, Hd.
  apply String.eqb_eq in Hu. rewrite Hu. cbn [negb].
  rewrite Hdoc', Hpr, Hf. reflexivity.
Qed.

Lemma generateVersions_run svc st caller id b now d project urls :
  get id (designs st) = Some d ->
  userId d = c_userId caller ->
  projectId d <> "" ->
  get (projectId d) (projects st) = Some project ->
  fanOut svc (projectData project) (content d)
    (providerOrDefault b) (countOrDefault b) = Resolved urls ->
  generateVersions svc st caller id b now =
  (reply 200
     (GeneratedBody "New versions generated successfully" urls
        (currentVersion d + toNumber (countOrDefault b))%Z
        (providerOrDefault b)),
   with_designs (update id (mergeGenerated d urls (countOrDefault b) now)) st).
Proof.
  intros Hd Hu _ Hpr Hf.
  apply (generateVersions_run_at svc st caller id b now id d (projectId d)
           project urls (docId_of_get _ _ _ Hd) Hd Hu
           (docId_of_get _ _ _ Hpr) Hpr Hf).
Qed.

(** Any answer of the generate handler other than 200 leaves the store
    as it was. *)
Lemma generateVersions_not_ok svc st caller id b now :
  status (fst (generateVersions svc st caller id b now)) <> 200 ->
  snd (generateVersions svc st caller id b now) = st.
Proof.
  unfold generateVersions.
  destruct (docId (JStr id)) as [[did|]|]; try reflexivity.
  destruct (get did (designs st)) as [d|]; [|reflexivity].
  destruct (negb _); [reflexivity|].
  destruct (docId (JStr (projectId d))) as [[pid|]|]; try reflexivity.
  destruct (get pid (projects st)); [|reflexivity].
  destruct (fanOut _ _ _ _ _); [|reflexivity].
  intros H. exfalso. apply H. reflexivity.
Qed.

End GenerateFacts.

(* ===================================================================== *)
(** ** What each handler does to the store *)
(* ===================================================================== *)

Module HandlerFacts.
Import Gen Store Server Model StoreFacts GenerateFacts.

(** The [auth] middleware sends 401 or nothing. *)
Lemma auth_denied_401 P h denied : auth P h = inl denied -> status denied = 401.
Proof.
  unfold auth. destruct h as [header|]; [|intros H; inversion H; reflexivity].
  destruct (replaceFirst "Bearer " "" header =? "");
    [intros H; inversion H; reflexivity|].
  destruct (jwt_verify P _); [discriminate|intros H; inversion H; reflexivity].
Qed.

Lemma register_cases P st b salt newId now :
  (snd (register P st b salt newId now) = st /\
   status (fst (register P st b salt newId now)) <> 201) \/
  exists password,
    writable (r_email b) = true /\
    where_ (fun u => jsEq (u_email u) (r_email b)) (users st) = [] /\
    r_password b = JStr password /\
    writable (r_firstName b) = true /\
    writable (r_lastName b) = true /\
    register P st b salt newId now =
      (reply 201
         (AuthBody "User created successfully"
            (jwt_sign P {| c_userId := newId; c_role := "user" |}) newId
            (r_email b) (r_firstName b) (r_lastName b) "user"),
       with_users
         (add newId
            {| u_email := r_email b;
               u_password := bcrypt_hash P salt password;
               u_firstName := r_firstName b;
               u_lastName := r_lastName b;
               u_role := "user";
               u_createdAt := now;
               u_updatedAt := now |}) st).
Proof.
  unfold register.
  destruct (writable (r_email b)); cbn [negb];
    [|left; split; [reflexivity|discriminate]].
  destruct (where_ _ (users st)) eqn:Hw;
    [|left; split; [reflexivity|discriminate]].
  destruct (r_password b) as [| | | |password| |];
    try (left; split; [reflexivity|discriminate]).
  cbn [u_firstName u_lastName].
  destruct (writable (r_firstName b)); cbn [andb];
    [|left; split; [reflexivity|discriminate]].
  destruct (writable (r_lastName b));
    [|left; split; [reflexivity|discriminate]].
  right. exists password. repeat split; reflexivity.
Qed.

Lemma createProject_cases st caller b newId now :
  (snd (createProject st caller b newId now) = st /\
   fst (createProject st caller b newId now) = serverError) \/
  exists p,
    createProject st caller b newId now =
      (reply 201 (ProjectBody newId p), with_projects (add newId p) st) /\
    p_userId p = c_userId caller /\
    p_name p = cp_name b /\
    p_description p = cp_description b /\
    p_designType p = cp_designType b /\
    p_brandElements p =
      (if truthy (cp_brandElements b) then cp_brandElements b
       else defaultBrandElements) /\
    p_createdAt p = now.
Proof.
  unfold createProject. cbn [p_name p_description p_brandElements p_designType].
  destruct (_ && _); [|left; split; reflexivity].
  right. eexists. split; [reflexivity|]. repeat split; reflexivity.
Qed.

Lemma createDesign_cases st caller b newId now :
  (snd (createDesign st caller b newId now) = st /\
   status (fst (createDesign st caller b newId now)) <> 201) \/
  exists dd pid p,
    createDesign st caller b newId now =
      (reply 201 (DesignBody newId dd), with_designs (add newId dd) st) /\
    cd_projectId b = JStr (projectId dd) /\
    projectId dd <> "" /\
    docId (JStr (projectId dd)) = Resolved (Some pid) /\
    get pid (projects st) = Some p /\
    p_userId p = c_userId caller /\
    userId dd = c_userId caller /\
    generatedImages dd = [] /\
    currentVersion dd = 0%Z /\
    content dd = (if truthy (cd_content b) then cd_content b else JObj []) /\
    createdAt dd = now.
Proof.
  unfold createDesign.
  destruct (docId (cd_projectId b)) as [[pid|]|] eqn:Hdoc;
    try (left; split; [reflexivity|discriminate]).
  destruct (cd_projectId b) as [| | | |path| |] eqn:Hb;
    try (left; split; [reflexivity|discriminate]).
  destruct (get pid (projects st)) as [p|] eqn:Hp; cbv zeta;
    [|left; split; [reflexivity|discriminate]].
  destruct (p_userId p =? c_userId caller) eqn:Hu; cbn [negb];
    [|left; split; [reflexivity|discriminate]].
  cbn [content baseReferenceImage].
  destruct (_ && _); [|left; split; [reflexivity|discriminate]].
  right. eexists. exists pid, p. split; [reflexivity|].
  cbn [projectId userId generatedImages currentVersion content createdAt].
  apply String.eqb_eq in Hu.
  assert (Hne : path <> "") by (intros E; rewrite E in Hdoc; discriminate Hdoc).
  repeat split; assumption || reflexivity.
Qed.

Lemma generateVersions_cases svc st caller id b now :
  (snd (generateVersions svc st caller id b now) = st /\
   status (fst (generateVersions svc st caller id b now)) <> 200) \/
  exists did d0 urls,
    docId (JStr id) = Resolved (Some did) /\
    get did (designs st) = Some d0 /\
    userId d0 = c_userId caller /\
    status (fst (generateVersions svc st caller id b now)) = 200 /\
    snd (generateVersions svc st caller id b now)
      = with_designs
          (update did (mergeGenerated d0 urls (countOrDefault b) now)) st.
Proof.
  destruct (Nat.eq_dec
              (status (fst (generateVersions svc st caller id b now))) 200)
    as [Hok|Hbad].
  - right.
    destruct (generateVersions_ok svc st caller id b now _ _
                (surjective_pairing _) Hok)
      as (did & d & pid & project & urls & Hdoc & Hd & Hu & _ & _ & _ & _
          & Hst).
    exists did, d, urls. repeat split; assumption.
  - left. split; [apply generateVersions_not_ok; exact Hbad|exact Hbad].
Qed.

(** The upload route writes to the training data only, and only with
    its 201. *)
Lemma upload_cases P st h req newId now :
  (snd (route_uploadTrainingData P st h req newId now) = st /\
   status (fst (route_uploadTrainingData P st h req newId now)) <> 201) \/
  exists caller t,
    auth P h = inr caller /\
    c_role caller = "super_admin" /\
    route_uploadTrainingData P st h req newId now =
      (reply 201 (TrainingBody "Training data uploaded successfully" newId t),
       with_trainingData (add newId t) st).
Proof.
  unfold route_uploadTrainingData, uploadTrainingData.
  destruct (auth P h) as [denied|caller] eqn:Hauth.
  - left. split; [reflexivity|]. cbn [fst].
    rewrite (auth_denied_401 _ _ _ Hauth). discriminate.
  - destruct (uploadSingle _ _ _) as [file|];
      [|left; split; [reflexivity|discriminate]].
    destruct (c_role caller =? "super_admin") eqn:Hrole; cbn [negb];
      [|left; split; [reflexivity|discriminate]].
    destruct file as [f|]; [|left; split; [reflexivity|discriminate]].
    destruct (bind _ _) as [t|]; [|left; split; [reflexivity|discriminate]].
    destruct (_ && _); [|left; split; [reflexivity|discriminate]].
    right. exists caller, t. apply String.eqb_eq in Hrole.
    repeat split; assumption || reflexivity.
Qed.

End HandlerFacts.

(* ===================================================================== *)
(** ** Design generation workflow: versions *)
(* ===================================================================== *)

Module Versions.
Import Gen Store Server Model StoreFacts GenerateFacts Sample.

Lemma fanOut_count_nat svc project content provider (n : nat) urls :
  fanOut svc project content provider (CountNum (Z.of_nat n)) = Resolved urls ->
  List.length urls = n.
Proof.
  intros H. pose proof (fanOut_length _ _ _ _ _ _ H) as Hl.
  unfold fanOut, bind, arrayFromLength in H.
  destruct (toLength (CountNum (Z.of_nat n)) >? 2 ^ 32 - 1)%Z eqn:E;
    [discriminate|].
  rewrite Hl. unfold toLength in *. simpl toNumber in *.
  rewrite Z.gtb_ltb in E. apply Z.ltb_ge in E.
  change (2 ^ 32 - 1)%Z with 4294967295%Z in E.
  change (2 ^ 53 - 1)%Z with 9007199254740991%Z in *.
  lia.
Qed.

(** C1. An authenticated generate request with [count = n] on a design of
    the caller that is at version [v] with [v] images, when it succeeds,
    leaves the design at version [v + n] with [v + n] images whose first
    [v] are the old ones in order, and reports [totalVersions = v + n]
    and the [n] new URLs as [newVersions]. *)
Theorem generate_appends_count_versions
    P svc st authorization caller id b now (n v : nat) d resp st' :
  auth P authorization = inr caller ->
  get id (designs st) = Some d ->
  userId d = c_userId caller ->
  currentVersion d = Z.of_nat v ->
  List.length (generatedImages d) = v ->
  g_count b = CountNum (Z.of_nat n) ->
  route_generate P svc st authorization id b now = (resp, st') ->
  status resp = 200 ->
  exists d' newUrls,
    get id (designs st') = Some d' /\
    currentVersion d' = Z.of_nat (v + n) /\
    List.length (generatedImages d') = v + n /\
    firstn v (generatedImages d') = generatedImages d /\
    skipn v (generatedImages d') = newUrls /\
    List.length newUrls = n /\
    payload resp =
      GeneratedBody "New versions generated successfully" newUrls
        (Z.of_nat (v + n)) (providerOrDefault b).
Proof.
  intros Hauth Hd _ Hv Hlen Hc Hrun Hok.
  unfold route_generate in Hrun. rewrite Hauth in Hrun.
  destruct (generateVersions_ok _ _ _ _ _ _ _ _ Hrun Hok)
    as (did & d0 & pid & project & urls & Hdoc & Hd0 & _ & _ & _ & Hf
        & Hresp & Hst).
  rewrite (docId_of_get _ _ _ Hd) in Hdoc. inversion Hdoc; subst did.
  rewrite Hd in Hd0. inversion Hd0; subst d0. clear Hd0 Hdoc.
  assert (Hcount : countOrDefault b = CountNum (Z.of_nat n))
    by (unfold countOrDefault; rewrite Hc; reflexivity).
  rewrite Hcount in *.
  pose proof (fanOut_count_nat _ _ _ _ _ _ Hf) as Hn.
  exists (mergeGenerated d urls (CountNum (Z.of_nat n)) now d), urls.
  subst st' resp. simpl.
  rewrite get_update, Hd. simpl.
  rewrite length_app, Hv, <- Hlen.
  rewrite firstn_app, firstn_all, Nat.sub_diag, app_nil_r.
  rewrite skipn_app, skipn_all, Nat.sub_diag. simpl.
  rewrite Hn, Nat2Z.inj_add. repeat split; reflexivity.
Qed.

(** The sample request [{count: 2, provider: 'qwen'}] on a design at
    version 2 succeeds, so the theorem applies. *)
Lemma generate_appends_count_versions_witness :
  exists d' newUrls,
    get "d2" (designs
      (snd (route_generate toyPlatform offline shop aliceHeader "d2"
              {| g_count := CountNum 2; g_provider := JStr "qwen" |} 30)))
      = Some d' /\
    currentVersion d' = Z.of_nat (2 + 2) /\
    List.length (generatedImages d') = 2 + 2 /\
    firstn 2 (generatedImages d') = generatedImages offerV2 /\
    skipn 2 (generatedImages d') = newUrls /\
    List.length newUrls = 2 /\
    payload (fst (route_generate toyPlatform offline shop aliceHeader "d2"
              {| g_count := CountNum 2; g_provider := JStr "qwen" |} 30)) =
      GeneratedBody "New versions generated successfully" newUrls
        (Z.of_nat (2 + 2)) (JStr "qwen").
Proof.
  apply (generate_appends_count_versions toyPlatform offline shop aliceHeader
           alice "d2" {| g_count := CountNum 2; g_provider := JStr "qwen" |}
           30 2 2 offerV2); reflexivity.
Defined.

(** C8 as stated fails: not every authenticated request that omits
    [count] and [provider] appends three URLs.  On the store built by
    posting a project whose palette is a string and a design under it,
    the request of the design's owner is answered 500 and appends
    nothing. *)
Lemma default_generate_on_malformed_palette_appends_nothing :
  let created :=
    route_createProject toyPlatform emptyDb aliceHeader malformedProjectBody
      "p1" 10 in
  let designed :=
    route_createDesign toyPlatform (snd created) aliceHeader offerBody
      "d1" 20 in
  let b := {| g_count := CountAbsent; g_provider := JUndefined |} in
  let r := route_generate toyPlatform offline (snd designed) aliceHeader "d1"
             b 30 in
  auth toyPlatform aliceHeader = inr alice /\
  status (fst created) = 201 /\
  status (fst designed) = 201 /\
  status (fst r) = 500 /\
  snd r = snd designed /\
  exists d,
    get "d1" (designs (snd r)) = Some d /\
    userId d = c_userId alice /\
    generatedImages d = [] /\
    currentVersion d = 0%Z.
Proof.
  cbv zeta. repeat split; try reflexivity.
  eexists. repeat split; reflexivity.
Qed.

(** C8, amended.  A generate request without [count] and [provider] runs
    with [count = 3] and [provider = 'openai'], and its fan-out is over
    exactly three calls.  Whenever it is answered 200 the three calls,
    all to ['openai'], resolved, their three URLs are appended,
    [currentVersion] advances by 3 and the answer carries the three URLs
    as [newVersions]; any other answer leaves the store as it was.  It is
    answered 200 on a design of the caller whose parent project exists
    and whose prompt can be built. *)
Theorem generate_defaults_three_openai
    P svc st authorization caller id b now :
  auth P authorization = inr caller ->
  g_count b = CountAbsent ->
  g_provider b = JUndefined ->
  let r := route_generate P svc st authorization id b now in
  countOrDefault b = CountNum 3 /\
  providerOrDefault b = JStr "openai" /\
  arrayFromLength (countOrDefault b) = Resolved [0; 1; 2]%nat /\
  (status (fst r) = 200 ->
   exists did d pid project urls d',
     docId (JStr id) = Resolved (Some did) /\
     get did (designs st) = Some d /\
     userId d = c_userId caller /\
     docId (JStr (projectId d)) = Resolved (Some pid) /\
     get pid (projects st) = Some project /\
     promiseAll
       (map (generateDesign svc (projectData project) (content d)
               (JStr "openai")) [0; 1; 2]%nat) = Resolved urls /\
     List.length urls = 3%nat /\
     fst r =
       reply 200
         (GeneratedBody "New versions generated successfully" urls
            (currentVersion d + 3)%Z (JStr "openai")) /\
     get did (designs (snd r)) = Some d' /\
     generatedImages d' = (generatedImages d ++ urls)%list /\
     currentVersion d' = (currentVersion d + 3)%Z) /\
  (status (fst r) <> 200 -> snd r = st) /\
  (forall did d pid project prompt,
     docId (JStr id) = Resolved (Some did) ->
     get did (designs st) = Some d ->
     userId d = c_userId caller ->
     docId (JStr (projectId d)) = Resolved (Some pid) ->
     get pid (projects st) = Some project ->
     buildPrompt (projectData project) (content d) = Resolved prompt ->
     status (fst r) = 200).
Proof.
  intros Hauth Hc Hp. cbv zeta.
  assert (Hcount : countOrDefault b = CountNum 3)
    by (unfold countOrDefault; rewrite Hc; reflexivity).
  assert (Hprov : providerOrDefault b = JStr "openai")
    by (unfold providerOrDefault; rewrite Hp; reflexivity).
  split; [exact Hcount|]. split; [exact Hprov|].
  split; [rewrite Hcount; reflexivity|].
  unfold route_generate. rewrite Hauth.
  split; [|split].
  - intros Hok.
    destruct (generateVersions_ok svc st caller id b now _ _
                (surjective_pairing _) Hok)
      as (did & d & pid & project & urls & Hdoc & Hd & Hu & Hdoc' & Hpr & Hf
          & Hresp & Hst).
    rewrite Hcount, Hprov in Hf, Hresp.
    exists did, d, pid, project, urls,
      (mergeGenerated d urls (CountNum 3) now d).
    rewrite Hst, Hresp, Hcount.
    cbn [designs with_designs]. rewrite get_update, Hd.
    pose proof (fanOut_length _ _ _ _ _ _ Hf) as Hlen.
    repeat split; try assumption; reflexivity.
  - apply generateVersions_not_ok.
  - intros did d pid project prompt Hdoc Hd Hu Hdoc' Hpr Hprompt.
    destruct (promiseAll_all_resolved
                (generateDesign svc (projectData project) (content d)
                   (JStr "openai")) [0; 1; 2]%nat) as [urls Hurls].
    { intros k _. apply (generateDesign_resolves _ _ _ _ _ _ Hprompt). }
    assert (Hf : fanOut svc (projectData project) (content d)
                   (providerOrDefault b) (countOrDefault b) = Resolved urls).
    { rewrite Hcount, Hprov. exact Hurls. }
    rewrite (generateVersions_run_at _ _ _ _ _ _ _ _ _ _ _ Hdoc Hd Hu Hdoc'
               Hpr Hf).
    reflexivity.
Qed.

Lemma generate_defaults_three_openai_witness :
  let b := {| g_count := CountAbsent; g_provider := JUndefined |} in
  let r := route_generate toyPlatform offline shop aliceHeader "d1" b 30 in
  countOrDefault b = CountNum 3 /\
  providerOrDefault b = JStr "openai" /\
  exists urls d',
    List.length urls = 3%nat /\
    fst r = reply 200
              (GeneratedBody "New versions generated successfully" urls
                 (currentVersion offer + 3)%Z (JStr "openai")) /\
    get "d1" (designs (snd r)) = Some d' /\
    generatedImages d' = (generatedImages offer ++ urls)%list /\
    currentVersion d' = (currentVersion offer + 3)%Z.
Proof.
  cbv zeta.
  destruct (generate_defaults_three_openai toyPlatform offline shop
              aliceHeader alice "d1"
              {| g_count := CountAbsent; g_provider := JUndefined |} 30
              eq_refl eq_refl eq_refl) as (Hc & Hp & _ & Hok & _ & Hserved).
  split; [exact Hc|]. split; [exact Hp|].
  destruct (Hok (Hserved "d1" offer "p1" banner offerPrompt eq_refl eq_refl
                   eq_refl eq_refl eq_refl eq_refl))
    as (did & d & pid & project & urls & d' & Hdoc & Hd & _ & _ & _ & _
        & Hlen & Hresp & Hd' & Himg & Hver).
  inversion Hdoc; subst did. inversion Hd; subst d.
  exists urls, d'. repeat split; assumption.
Defined.

End Versions.

(* ===================================================================== *)
(** ** Store consistency, frame of a zero-count request, version invariant *)
(* ===================================================================== *)

Module Invariants.
Import Gen Store Server Model StoreFacts GenerateFacts HandlerFacts Sample.

Lemma consistent_empty : consistent emptyDb.
Proof.
  intros id d H. cbn [emptyDb designs] in H. rewrite get_nil in H.
  discriminate H.
Qed.

Lemma createDesign_consistent st caller b newId now :
  consistent st -> consistent (snd (createDesign st caller b newId now)).
Proof.
  intros Hc.
  destruct (createDesign_cases st caller b newId now)
    as [[-> _]|(dd & pid & p & -> & _ & Hne & Hdoc & Hp & _)]; [exact Hc|].
  intros id d. cbn [snd designs projects with_designs]. intros H.
  apply get_add_inv in H. destruct H as [H|(_ & _ & ->)].
  - apply (Hc id d H).
  - split; [exact Hne|eauto].
Qed.

Lemma generateVersions_consistent svc st caller id b now :
  consistent st ->
  consistent (snd (generateVersions svc st caller id b now)).
Proof.
  intros Hc.
  destruct (generateVersions_cases svc st caller id b now)
    as [[-> _]|(did & d & urls & _ & Hd & _ & _ & ->)]; [exact Hc|].
  intros id' d'. cbn [designs projects with_designs].
  destruct (String.eqb_spec id' did) as [->|Hne].
  - rewrite get_update, Hd. simpl. intros H. inversion H; subst. simpl.
    apply (Hc did d Hd).
  - rewrite (get_update_other _ _ _ _ Hne). apply Hc.
Qed.

Lemma step_consistent P svc st st' :
  consistent st -> step P svc st st' -> consistent st'.
Proof.
  intros Hc Hstep. destruct Hstep.
  - destruct (register_cases P st b salt newId now)
      as [[-> _]|(pw & _ & _ & _ & _ & _ & ->)]; [exact Hc|].
    intros id d. cbn [snd designs projects with_users]. apply Hc.
  - unfold route_createProject.
    destruct (auth P authorization) as [r|caller]; [exact Hc|].
    destruct (createProject_cases st caller b newId now)
      as [[-> _]|(p & -> & _)]; [exact Hc|].
    intros id d H. cbn [snd designs projects with_projects] in *.
    destruct (Hc id d H) as [Hne (pid & p0 & Hdoc & Hp)].
    split; [exact Hne|]. exists pid, p0.
    split; [exact Hdoc|apply get_add_keeps; exact Hp].
  - unfold route_createDesign.
    destruct (auth P authorization); [exact Hc|].
    apply createDesign_consistent. exact Hc.
  - unfold route_generate.
    destruct (auth P authorization); [exact Hc|].
    apply generateVersions_consistent. exact Hc.
  - destruct (upload_cases P st authorization req newId now)
      as [[-> _]|(caller & t & _ & _ & ->)]; [exact Hc|].
    intros id d. cbn [snd designs projects with_trainingData]. apply Hc.
Qed.

(** Every store the API builds is consistent: projects are never removed
    and a design is only created under an existing project. *)
Lemma reachable_consistent P svc st : reachable P svc st -> consistent st.
Proof.
  induction 1 as [|st st' _ IH Hstep].
  - apply consistent_empty.
  - apply (step_consistent _ _ _ _ IH Hstep).
Qed.

(** C10. On a consistent store, a generate request with [count = 0] on a
    design of the caller answers 200 with no new versions and
    [totalVersions] equal to the prior [currentVersion]; the stored design
    changes in [updatedAt] only, and nothing else in the store changes. *)
Theorem generate_zero_count_touches_updatedAt_only
    P svc st authorization caller id b now d :
  consistent st ->
  auth P authorization = inr caller ->
  get id (designs st) = Some d ->
  userId d = c_userId caller ->
  g_count b = CountNum 0 ->
  let r := route_generate P svc st authorization id b now in
  fst r = reply 200
            (GeneratedBody "New versions generated successfully" []
               (currentVersion d) (providerOrDefault b)) /\
  get id (designs (snd r)) =
    Some {| projectId := projectId d;
            userId := userId d;
            content := content d;
            baseReferenceImage := baseReferenceImage d;
            generatedImages := generatedImages d;
            currentVersion := currentVersion d;
            isActive := isActive d;
            createdAt := createdAt d;
            updatedAt := now |} /\
  (forall id', id' <> id -> get id' (designs (snd r)) = get id' (designs st)) /\
  users (snd r) = users st /\
  projects (snd r) = projects st /\
  trainingData (snd r) = trainingData st.
Proof.
  intros Hc Hauth Hd Hu Hcount r. subst r.
  destruct (Hc id d Hd) as [Hne (pid & project & Hdoc & Hpr)].
  assert (Hcd : countOrDefault b = CountNum 0)
    by (unfold countOrDefault; rewrite Hcount; reflexivity).
  assert (Hf : fanOut svc (projectData project) (content d)
                 (providerOrDefault b) (countOrDefault b) = Resolved []).
  { rewrite Hcd. reflexivity. }
  unfold route_generate. rewrite Hauth.
  rewrite (generateVersions_run_at _ _ _ _ _ _ _ _ _ _ _
             (docId_of_get _ _ _ Hd) Hd Hu Hdoc Hpr Hf).
  rewrite Hcd. simpl. rewrite get_update, Hd. unfold mergeGenerated. simpl.
  rewrite app_nil_r, Z.add_0_r.
  repeat split; try reflexivity.
  intros id' Hid. apply get_update_other. exact Hid.
Qed.

Lemma shop_consistent : consistent shop.
Proof.
  intros id d. unfold get at 1. destruct (validId id); [|discriminate].
  cbn [shop designs find].
  destruct ("d1" =? id).
  - intros H; inversion H; subst d.
    split; [discriminate|eexists; eexists; split; reflexivity].
  - destruct ("d2" =? id); [|discriminate].
    intros H; inversion H; subst d.
    split; [discriminate|eexists; eexists; split; reflexivity].
Defined.

Lemma generate_zero_count_touches_updatedAt_only_witness :
  let r := route_generate toyPlatform offline shop aliceHeader "d2"
             {| g_count := CountNum 0; g_provider := JStr "gemini" |} 30 in
  fst r = reply 200
            (GeneratedBody "New versions generated successfully" []
               2%Z (JStr "gemini")) /\
  get "d2" (designs (snd r)) =
    Some {| projectId := "p1";
            userId := "alice";
            content := content offerV2;
            baseReferenceImage := JNull;
            generatedImages := ["https://img/1"; "https://img/2"];
            currentVersion := 2;
            isActive := true;
            createdAt := 21;
            updatedAt := 30 |} /\
  (forall id', id' <> "d2" ->
     get id' (designs (snd r)) = get id' (designs shop)) /\
  users (snd r) = users shop /\
  projects (snd r) = projects shop /\
  trainingData (snd r) = trainingData shop.
Proof.
  apply (generate_zero_count_touches_updatedAt_only toyPlatform offline shop
           aliceHeader alice "d2"
           {| g_count := CountNum 0; g_provider := JStr "gemini" |} 30 offerV2
           shop_consistent); reflexivity.
Defined.

(** [create-design] stores version 0 with no images. *)
Lemma createDesign_versionMatches st caller b newId now id d :
  payload (fst (createDesign st caller b newId now)) = DesignBody id d ->
  generatedImages d = [] /\ currentVersion d = 0%Z /\ versionMatches d.
Proof.
  destruct (createDesign_cases st caller b newId now)
    as [[_ Hbad]|(dd & pid & p & Heq & _ & _ & _ & _ & _ & _ & Himg & Hver
                  & _)].
  - intros H. exfalso. revert Hbad H. unfold createDesign.
    destruct (docId (cd_projectId b)) as [[pid|]|]; try discriminate.
    destruct (cd_projectId b); try discriminate.
    cbv zeta.
    destruct (match get pid (projects st) with
              | Some p => negb (p_userId p =? c_userId caller)
              | None => true
              end); [discriminate|].
    destruct (_ && _); [|discriminate].
    intros Hbad _. apply Hbad. reflexivity.
  - rewrite Heq. cbn [fst payload reply]. intros H. inversion H; subst.
    unfold versionMatches. rewrite Himg, Hver. repeat split.
Qed.

Lemma createDesign_stores st caller b newId now id d :
  payload (fst (createDesign st caller b newId now)) = DesignBody id d ->
  id = newId /\
  designs (snd (createDesign st caller b newId now)) = add newId d (designs st).
Proof.
  unfold createDesign.
  destruct (docId (cd_projectId b)) as [[pid|]|]; try discriminate.
  destruct (cd_projectId b); try discriminate.
  cbv zeta.
  destruct (match get pid (projects st) with
            | Some p => negb (p_userId p =? c_userId caller)
            | None => true
            end); [discriminate|].
  destruct (_ && _); [|discriminate].
  simpl. intros H. inversion H; subst. split; reflexivity.
Qed.

(** The generate handler keeps the invariant for every count that is
    absent, [null], a boolean or a non-negative integer. *)
Lemma generate_keeps_invariant_nonneg
    svc st caller id b now did d resp st' :
  docId (JStr id) = Resolved (Some did) ->
  get did (designs st) = Some d ->
  versionMatches d ->
  (0 <= toNumber (countOrDefault b))%Z ->
  generateVersions svc st caller id b now = (resp, st') ->
  status resp = 200%nat ->
  exists d', get did (designs st') = Some d' /\ versionMatches d'.
Proof.
  intros Hid Hd Hinv Hpos Hrun Hok.
  destruct (generateVersions_ok _ _ _ _ _ _ _ _ Hrun Hok)
    as (did' & d0 & pid & project & urls & Hdoc & Hd0 & _ & _ & _ & Hf & _
        & Hst).
  rewrite Hid in Hdoc. inversion Hdoc; subst did'.
  rewrite Hd in Hd0. inversion Hd0; subst d0. clear Hd0 Hdoc.
  exists (mergeGenerated d urls (countOrDefault b) now d).
  subst st'. simpl. rewrite get_update, Hd. split; [reflexivity|].
  unfold versionMatches in *. simpl.
  rewrite length_app, Nat2Z.inj_add, <- Hinv.
  rewrite (fanOut_length _ _ _ _ _ _ Hf). f_equal.
  unfold fanOut, bind, arrayFromLength in Hf.
  destruct (toLength (countOrDefault b) >? 2 ^ 32 - 1)%Z eqn:E;
    [discriminate|].
  rewrite Z.gtb_ltb in E. apply Z.ltb_ge in E.
  unfold toLength in *.
  change (2 ^ 32 - 1)%Z with 4294967295%Z in E.
  change (2 ^ 53 - 1)%Z with 9007199254740991%Z in *.
  lia.
Qed.

(** C2, at the failing input.  A generate request with [count = -1] is
    answered 200; it appends nothing and lowers [currentVersion] to -1, so
    a design that satisfied the invariant no longer does. *)
Theorem negative_count_breaks_version_invariant :
  let r := route_generate toyPlatform offline shop aliceHeader "d1"
             {| g_count := CountNum (-1); g_provider := JStr "qwen" |} 30 in
  versionMatches offer /\
  status (fst r) = 200%nat /\
  exists d',
    get "d1" (designs (snd r)) = Some d' /\
    generatedImages d' = [] /\
    currentVersion d' = (-1)%Z /\
    ~ versionMatches d'.
Proof.
  cbv zeta. split; [reflexivity|]. split; [reflexivity|].
  eexists. split; [reflexivity|].
  split; [reflexivity|]. split; [reflexivity|].
  unfold versionMatches. simpl. discriminate.
Qed.

End Invariants.

(* ===================================================================== *)
(** ** Generation adapter: placeholders and failures *)
(* ===================================================================== *)

Module Generation.
Import Gen Store Server Model StoreFacts GenerateFacts Sample.

(** With the prompt built, an unconfigured or unrecognised provider gives
    its placeholder, and a failing live call gives the error placeholder. *)
Lemma generateDesign_placeholders svc project content k prompt :
  buildPrompt project content = Resolved prompt ->
  (openai svc = None ->
   generateDesign svc project content (JStr "openai") k =
     Resolved url_openai_not_configured) /\
  (gemini svc = false ->
   generateDesign svc project content (JStr "gemini") k =
     Resolved url_gemini_not_configured) /\
  (forall p, p <> "openai" -> p <> "gemini" -> p <> "qwen" ->
   generateDesign svc project content (JStr p) k = Resolved (url_demo p)) /\
  (forall client, openai svc = Some client -> client k prompt = ApiThrew ->
   generateDesign svc project content (JStr "openai") k = Resolved url_error).
Proof.
  intros Hp. unfold generateDesign. rewrite Hp.
  cbv beta iota delta [bind]. repeat split.
  - intros H. simpl. rewrite H. reflexivity.
  - intros H. simpl. rewrite H. reflexivity.
  - intros p H1 H2 H3. unfold dispatch.
    apply String.eqb_neq in H1, H2, H3. rewrite H1, H2, H3. reflexivity.
  - intros client H1 H2. simpl. rewrite H1, H2. reflexivity.
Qed.

(** For a project and a content shaped as the interfaces declare, and a
    provider name, a call always resolves. *)
Lemma generateDesign_typed_resolves svc (p : Project) dt colors fonts fields
    provider k :
  p_designType p = JStr dt ->
  p_brandElements p = brandElementsOf colors fonts ->
  exists url,
    generateDesign svc (projectData p) (contentOf fields) (JStr provider) k
      = Resolved url.
Proof.
  intros Hdt Hbe.
  destruct (buildPrompt_typed p dt colors fonts fields Hdt Hbe) as [prompt Hp].
  apply (generateDesign_resolves _ _ _ _ _ _ Hp).
Qed.

(** C3, at the failing input.  The prompt is built before [try] is
    entered: for a project whose [colorPalette] is a string, [.join] is
    not a function and [generateDesign] rejects, whatever the provider.
    Such a project is stored by [POST /api/projects] as posted, and a
    generate request on one of its designs is answered 500. *)
Theorem generateDesign_rejects_on_malformed_palette :
  generateDesign offline malformedProject (JObj []) (JStr "openai") 0
    = Rejected /\
  let created :=
    route_createProject toyPlatform emptyDb aliceHeader malformedProjectBody
      "p1" 10 in
  let designed :=
    route_createDesign toyPlatform (snd created) aliceHeader
      {| cd_projectId := JStr "p1";
         cd_content := JObj [("title", JStr "50% Off")];
         cd_baseReferenceImage := JNull |} "d1" 20 in
  let generated :=
    route_generate toyPlatform offline (snd designed) aliceHeader "d1"
      {| g_count := CountNum 1; g_provider := JStr "openai" |} 30 in
  status (fst created) = 201 /\
  status (fst designed) = 201 /\
  fst generated = serverError /\
  snd generated = snd designed.
Proof. cbv zeta. repeat split; reflexivity. Qed.

(** C9 as stated fails: with a malformed project the ['qwen'] call does
    not return the fixed URL. *)
Lemma qwen_call_on_malformed_project_not_fixed_url :
  ~ (forall project content,
       generateDesign (initServices qwenKeyOnly deadClient) project content
         (JStr "qwen") 0 = Resolved url_qwen_generated).
Proof. intros H. specialize (H malformedProject (JObj [])). discriminate H. Qed.

(** C9, amended.  Whenever the prompt can be built, [generateDesign] with
    provider ['qwen'] returns the fixed URL, whatever the service handles
    and the environment; the providers listing nevertheless reports qwen
    as available exactly when [QWEN_API_KEY] is set. *)
Theorem qwen_returns_fixed_url_whatever_the_key
    svc e project content k prompt :
  buildPrompt project content = Resolved prompt ->
  generateDesign svc project content (JStr "qwen") k =
    Resolved
      "https://via.placeholder.com/1024x1024/10B981/FFFFFF?text=Qwen+Generated+Design"
  /\
  listProviders e =
    reply 200
      (ProvidersBody [("openai", configured (OPENAI_API_KEY e));
                      ("gemini", configured (GEMINI_API_KEY e));
                      ("qwen", configured (QWEN_API_KEY e))]).
Proof.
  intros Hp. split; [|reflexivity].
  unfold generateDesign. rewrite Hp. reflexivity.
Qed.

Lemma qwen_returns_fixed_url_whatever_the_key_witness :
  generateDesign (initServices qwenKeyOnly deadClient) (projectData banner)
    (content offer) (JStr "qwen") 7 =
    Resolved
      "https://via.placeholder.com/1024x1024/10B981/FFFFFF?text=Qwen+Generated+Design"
  /\
  listProviders qwenKeyOnly =
    reply 200
      (ProvidersBody [("openai", configured (OPENAI_API_KEY qwenKeyOnly));
                      ("gemini", configured (GEMINI_API_KEY qwenKeyOnly));
                      ("qwen", configured (QWEN_API_KEY qwenKeyOnly))]).
Proof.
  apply (qwen_returns_fixed_url_whatever_the_key
           (initServices qwenKeyOnly deadClient) qwenKeyOnly
           (projectData banner) (content offer) 7 offerPrompt).
  reflexivity.
Defined.

End Generation.

(* ===================================================================== *)
(** ** Ownership and role checks *)
(* ===================================================================== *)

Module Access.
Import Gen Store Server Model StoreFacts Sample.

(** C4 as stated fails: Bob posting a design under Alice's project is not
    answered 403. *)
Lemma create_design_foreign_project_not_403 :
  get "p1" (projects shop) = Some banner /\
  p_userId banner <> c_userId bob /\
  auth toyPlatform bobHeader = inr bob /\
  status (fst (route_createDesign toyPlatform shop bobHeader
                 foreignDesignBody "d9" 40)) <> 403.
Proof. repeat split; try reflexivity; vm_compute; discriminate. Qed.

(** C4, amended.  A create-design request naming a project that exists
    but belongs to another user is answered 404 ['Project not found'],
    the very answer given when the posted id names no stored project, and
    stores nothing.  (A [projectId] that [doc] refuses, such as one of
    two segments, is answered 500.) *)
Theorem create_design_foreign_project_is_404
    P st authorization caller b newId now pid :
  auth P authorization = inr caller ->
  docId (cd_projectId b) = Resolved (Some pid) ->
  (get pid (projects st) = None \/
   exists p, get pid (projects st) = Some p /\ p_userId p <> c_userId caller) ->
  route_createDesign P st authorization b newId now =
    (reply 404 (Message "Project not found"), st).
Proof.
  intros Hauth Hdoc Hproj. unfold route_createDesign, createDesign.
  rewrite Hauth, Hdoc.
  destruct (docId_some _ _ Hdoc) as (_ & _ & path & ->). cbv zeta.
  destruct Hproj as [Hnone|[p [Hp Hown]]].
  - rewrite Hnone. reflexivity.
  - rewrite Hp. apply String.eqb_neq in Hown. rewrite Hown. reflexivity.
Qed.

Lemma create_design_foreign_project_is_404_witness :
  route_createDesign toyPlatform shop bobHeader foreignDesignBody "d9" 40 =
    (reply 404 (Message "Project not found"), shop).
Proof.
  apply (create_design_foreign_project_is_404 toyPlatform shop bobHeader bob
           foreignDesignBody "d9" 40 "p1").
  - reflexivity.
  - reflexivity.
  - right. exists banner. split; [reflexivity|discriminate].
Defined.

(** C5 as stated fails: a caller with role ['user'] who sends an image
    above the size limit is answered by the error middleware, not 403. *)
Lemma upload_by_user_with_big_file_not_403 :
  auth toyPlatform aliceHeader = inr alice /\
  c_role alice = "user" /\
  status (fst (route_uploadTrainingData toyPlatform emptyDb aliceHeader
                 (uploadOf [bigImage]) "t1" 50)) <> 403.
Proof. repeat split; vm_compute; discriminate. Qed.

(** C5, amended.  For a caller whose token carries role ['user']: when
    the upload middleware hands the request on (no file part, or one file
    part sent as ['image'] within the 5 MiB limit) the answer is 403,
    whatever the payload, file present or not; when the middleware rejects
    the file parts, the answer is the error middleware's 500.  Nothing is
    stored either way. *)
Theorem upload_by_user_role_is_403_after_multer
    P st authorization caller req newId now :
  auth P authorization = inr caller ->
  c_role caller = "user" ->
  route_uploadTrainingData P st authorization req newId now =
    (match uploadSingle "image" fileSizeLimit (files req) with
     | Resolved _ => reply 403 (Message "Access denied. Super admin required.")
     | Rejected => reply 500 (Message "Something went wrong!")
     end, st).
Proof.
  intros Hauth Hrole. unfold route_uploadTrainingData. rewrite Hauth.
  destruct (uploadSingle "image" fileSizeLimit (files req)) as [file|];
    [|reflexivity].
  unfold uploadTrainingData. rewrite Hrole. reflexivity.
Qed.

Lemma upload_by_user_role_is_403_after_multer_witness :
  route_uploadTrainingData toyPlatform emptyDb aliceHeader
    (uploadOf [smallImage]) "t1" 50 =
    (reply 403 (Message "Access denied. Super admin required."), emptyDb).
Proof.
  apply (upload_by_user_role_is_403_after_multer toyPlatform emptyDb
           aliceHeader alice (uploadOf [smallImage]) "t1" 50); reflexivity.
Defined.

(** C6. Listing the designs of a project returns exactly the stored
    designs whose [projectId] is the requested one and whose [userId] is
    the caller's (the two filters are a conjunction); in particular no
    design of another user is returned, and a caller who owns no design of
    the project gets the empty sequence. *)
Theorem list_designs_scoped_to_project_and_caller
    P st authorization caller pid :
  auth P authorization = inr caller ->
  exists ds,
    route_listDesigns P st authorization pid = reply 200 (DesignsBody ds) /\
    (forall id d,
        In (id, d) ds <->
        In (id, d) (designs st) /\
        projectId d = pid /\ userId d = c_userId caller) /\
    ((forall id d,
         In (id, d) (designs st) -> projectId d = pid ->
         userId d <> c_userId caller) ->
     ds = []).
Proof.
  intros Hauth. unfold route_listDesigns, listDesigns. rewrite Hauth.
  eexists. split; [reflexivity|].
  assert (Hin : forall id d,
    In (id, d)
      (orderByDesc createdAt
         (where_ (fun d0 => userId d0 =? c_userId caller)
            (where_ (fun d0 => projectId d0 =? pid) (designs st)))) <->
    In (id, d) (designs st) /\ projectId d = pid /\ userId d = c_userId caller).
  { intros id d. rewrite In_orderByDesc, !In_where. simpl.
    rewrite !String.eqb_eq. tauto. }
  split; [exact Hin|].
  intros Hnone.
  destruct (orderByDesc _ _) as [|[id d] rest]; [reflexivity|].
  exfalso. destruct (proj1 (Hin id d) (or_introl eq_refl)) as (Hi & Hp & Hu).
  exact (Hnone id d Hi Hp Hu).
Qed.

Lemma list_designs_scoped_to_project_and_caller_witness :
  exists ds,
    route_listDesigns toyPlatform shop bobHeader "p1"
      = reply 200 (DesignsBody ds) /\
    (forall id d,
        In (id, d) ds <->
        In (id, d) (designs shop) /\
        projectId d = "p1" /\ userId d = c_userId bob) /\
    ((forall id d,
         In (id, d) (designs shop) -> projectId d = "p1" ->
         userId d <> c_userId bob) ->
     ds = []).
Proof.
  apply (list_designs_scoped_to_project_and_caller toyPlatform shop bobHeader
           bob "p1").
  reflexivity.
Defined.

End Access.

(* ===================================================================== *)
(** ** Accounts: registration and login *)
(* ===================================================================== *)

Module Accounts.
Import Gen Store Server Model StoreFacts HandlerFacts Sample.

Section Register.
Variable P : platform.

(** What is assumed of bcrypt: a password verifies against its own hash. *)
Hypothesis bcrypt_sound :
  forall salt pw, bcrypt_compare P pw (bcrypt_hash P salt pw) = true.

(** C7. For an email no stored user has and any password, a register
    request that succeeds (201) stores a user whose role is ['user']
    whatever else the body carries; a login with the same email and
    password on the resulting store answers 200 with a token signed over
    role ['user'].  (Register answers 500 instead when the body lacks a
    name or its password is not a string: see [register_cases].) *)
Theorem register_then_login_as_user st b salt newId now :
  (forall id u, In (id, u) (users st) -> u_email u <> r_email b) ->
  let reg := register P st b salt newId now in
  let log := login P (snd reg)
               {| l_email := r_email b; l_password := r_password b |} in
  status (fst reg) = 201 ->
  (exists u,
      users (snd reg) = add newId u (users st) /\
      u_email u = r_email b /\ u_role u = "user") /\
  status log = 200 /\
  payload log =
    AuthBody "Login successful"
      (jwt_sign P {| c_userId := newId; c_role := "user" |})
      newId (r_email b) (r_firstName b) (r_lastName b) "user".
Proof.
  intros Hfresh. cbv zeta. intros Hok.
  destruct (register_cases P st b salt newId now)
    as [[_ Hbad]|(password & Hw & Hnone & Hpw & _ & _ & Hreg)];
    [contradiction|].
  rewrite Hreg. cbn [fst snd users with_users].
  split.
  { eexists. split; [reflexivity|]. split; reflexivity. }
  unfold login. cbn [users with_users l_email l_password].
  rewrite Hw. cbn [negb].
  rewrite where_add, Hnone. cbn [u_email app].
  rewrite jsEq_refl, Hpw. cbn [u_password u_role].
  rewrite bcrypt_sound. split; reflexivity.
Qed.

End Register.

Lemma register_then_login_as_user_witness :
  let reg := register toyPlatform emptyDb newcomer "salt" "u1" 5 in
  let log := login toyPlatform (snd reg)
               {| l_email := r_email newcomer;
                  l_password := r_password newcomer |} in
  (exists u,
      users (snd reg) = add "u1" u (users emptyDb) /\
      u_email u = r_email newcomer /\ u_role u = "user") /\
  status log = 200 /\
  payload log =
    AuthBody "Login successful"
      (jwt_sign toyPlatform {| c_userId := "u1"; c_role := "user" |})
      "u1" (r_email newcomer) (r_firstName newcomer) (r_lastName newcomer)
      "user".
Proof.
  apply (register_then_login_as_user toyPlatform).
  - intros salt pw. apply String.eqb_refl.
  - intros id u H. destruct H.
  - reflexivity.
Defined.

End Accounts.

(* ===================================================================== *)
(** ** The authentication gate *)
(* ===================================================================== *)

Module AuthGate.
Import Gen Store Server Model StoreFacts HandlerFacts Sample.

Lemma prefix_app (pat t : string) : String.prefix pat (pat ++ t) = true.
Proof.
  induction pat as [|a pat IH]; simpl.
  - destruct t; reflexivity.
  - destruct (ascii_dec a a) as [_|Hne]; [exact IH|congruence].
Qed.

Lemma substring_whole (t : string) : substring 0 (String.length t) t = t.
Proof. induction t as [|a t IH]; simpl; [reflexivity|f_equal; exact IH]. Qed.

Lemma substring_after (pat t : string) :
  substring (String.length pat)
    (String.length (pat ++ t) - String.length pat) (pat ++ t) = t.
Proof.
  induction pat as [|a pat IH]; simpl.
  - rewrite Nat.sub_0_r. apply substring_whole.
  - exact IH.
Qed.

(** A pattern at the very start of the string is the occurrence replaced. *)
Lemma replaceFirst_prefix (pat rep t : string) :
  replaceFirst pat rep (pat ++ t) = rep ++ t.
Proof.
  assert (Hunfold : forall s,
    replaceFirst pat rep s =
    if String.prefix pat s
    then rep ++ substring (String.length pat)
                  (String.length s - String.length pat) s
    else match s with
         | EmptyString => EmptyString
         | String c rest => String c (replaceFirst pat rep rest)
         end) by (intros s; destruct s; reflexivity).
  rewrite Hunfold, prefix_app, substring_after. reflexivity.
Qed.

(** X1. A request whose [Authorization] header is missing, or carries no
    token or a token [jwt.verify] rejects, is answered 401 by every
    protected route, and no route touches the store. *)
Theorem denied_request_is_401_and_changes_nothing
    P svc st h denied pb db_ gb ub pid id newId now :
  auth P h = inl denied ->
  status denied = 401 /\
  route_createProject P st h pb newId now = (denied, st) /\
  route_createDesign P st h db_ newId now = (denied, st) /\
  route_generate P svc st h id gb now = (denied, st) /\
  route_uploadTrainingData P st h ub newId now = (denied, st) /\
  route_listDesigns P st h pid = denied /\
  route_listProjects P st h = inl denied /\
  route_getMe P st h = inl denied.
Proof.
  intros Hd.
  unfold route_createProject, route_createDesign, route_generate,
    route_uploadTrainingData, route_listDesigns, route_listProjects,
    route_getMe.
  rewrite Hd. split; [|repeat split; reflexivity].
  unfold auth in Hd. destruct h as [header|]; [|inversion Hd; reflexivity].
  destruct (replaceFirst "Bearer " "" header =? "");
    [inversion Hd; reflexivity|].
  destruct (jwt_verify P _); [discriminate|inversion Hd; reflexivity].
Qed.

Lemma denied_request_is_401_and_changes_nothing_witness :
  status (reply 401 (Message "Token is not valid")) = 401 /\
  route_createProject toyPlatform shop (Some "Bearer forged")
    malformedProjectBody "p9" 40
    = (reply 401 (Message "Token is not valid"), shop) /\
  route_createDesign toyPlatform shop (Some "Bearer forged")
    foreignDesignBody "p9" 40
    = (reply 401 (Message "Token is not valid"), shop) /\
  route_generate toyPlatform offline shop (Some "Bearer forged") "d1"
    {| g_count := CountAbsent; g_provider := JUndefined |} 40
    = (reply 401 (Message "Token is not valid"), shop) /\
  route_uploadTrainingData toyPlatform shop (Some "Bearer forged")
    (uploadOf [smallImage]) "p9" 40
    = (reply 401 (Message "Token is not valid"), shop) /\
  route_listDesigns toyPlatform shop (Some "Bearer forged") "p1"
    = reply 401 (Message "Token is not valid") /\
  route_listProjects toyPlatform shop (Some "Bearer forged")
    = inl (reply 401 (Message "Token is not valid")) /\
  route_getMe toyPlatform shop (Some "Bearer forged")
    = inl (reply 401 (Message "Token is not valid")).
Proof.
  apply (denied_request_is_401_and_changes_nothing toyPlatform offline shop
           (Some "Bearer forged")).
  reflexivity.
Defined.

(** X2. The token handed out by a successful registration, sent back as
    [Bearer <token>], passes the gate as the new user with role ['user']
    (given that [jwt.verify] accepts what [jwt.sign] produced and that the
    signed token is not the empty string). *)
Theorem registered_token_passes_gate P st b salt newId now :
  let c := {| c_userId := newId; c_role := "user" |} in
  jwt_verify P (jwt_sign P c) = Some c ->
  jwt_sign P c <> "" ->
  status (fst (register P st b salt newId now)) = 201 ->
  exists msg token,
    payload (fst (register P st b salt newId now)) =
      AuthBody msg token newId (r_email b) (r_firstName b) (r_lastName b)
        "user" /\
    auth P (Some ("Bearer " ++ token)) = inr c.
Proof.
  intros c Hverify Hne Hok.
  destruct (register_cases P st b salt newId now)
    as [[_ Hbad]|(password & _ & _ & _ & _ & _ & Hreg)]; [contradiction|].
  rewrite Hreg. cbn [fst payload reply].
  eexists. eexists. split; [reflexivity|].
  unfold auth. rewrite replaceFirst_prefix. cbn [String.append].
  apply String.eqb_neq in Hne. fold c. rewrite Hne, Hverify. reflexivity.
Qed.

Lemma registered_token_passes_gate_witness :
  exists msg token,
    payload (fst (register toyPlatform emptyDb newcomer "salt" "alice" 5)) =
      AuthBody msg token "alice" (r_email newcomer) (r_firstName newcomer)
        (r_lastName newcomer) "user" /\
    auth toyPlatform (Some ("Bearer " ++ token)) =
      inr {| c_userId := "alice"; c_role := "user" |}.
Proof.
  apply (registered_token_passes_gate toyPlatform emptyDb newcomer "salt"
           "alice" 5); [reflexivity|discriminate|reflexivity].
Defined.

End AuthGate.

(* ===================================================================== *)
(** ** Accounts: duplicates, login failures, roles *)
(* ===================================================================== *)

Module AccountFacts.
Import Gen Store Server Model StoreFacts HandlerFacts Sample.

(** X3. Once a registration for an email has been answered 201 or 400
    (it created the user or found the email taken), every further
    registration for that email is answered 400 ['User already exists']
    and stores nothing.  (A first attempt answered 500 stored nothing,
    and leaves the email free.) *)
Theorem second_registration_is_rejected
    P st b salt newId now b' salt' newId' now' :
  r_email b' = r_email b ->
  let first := register P st b salt newId now in
  status (fst first) <> 500 ->
  register P (snd first) b' salt' newId' now' =
    (reply 400 (Message "User already exists"), snd first).
Proof.
  intros He. cbv zeta. intros Hans.
  assert (Htaken : writable (r_email b) = true /\ exists x rest,
    where_ (fun u => jsEq (u_email u) (r_email b))
      (users (snd (register P st b salt newId now))) = x :: rest).
  { revert Hans. unfold register.
    destruct (writable (r_email b)); cbn [negb];
      [|intros H; exfalso; apply H; reflexivity].
    destruct (where_ (fun u => jsEq (u_email u) (r_email b)) (users st))
      as [|x rest] eqn:Hw; cbn [snd].
    - destruct (r_password b) as [| | | |password| |];
        try (intros H; exfalso; apply H; reflexivity).
      destruct (_ && _); [|intros H; exfalso; apply H; reflexivity].
      intros _. split; [reflexivity|].
      cbn [snd users with_users]. rewrite where_add, Hw. cbn [u_email].
      rewrite jsEq_refl. eexists. eexists. reflexivity.
    - intros _. split; [reflexivity|].
      rewrite Hw. eexists. eexists. reflexivity. }
  destruct Htaken as (Hw & x & rest & Htaken).
  generalize dependent (snd (register P st b salt newId now)).
  intros st1 Htaken. unfold register. rewrite He, Hw, Htaken. reflexivity.
Qed.

Lemma second_registration_is_rejected_witness :
  let first := register toyPlatform emptyDb newcomer "salt" "u1" 5 in
  register toyPlatform (snd first)
    {| r_email := JStr "alice@x.com"; r_password := JStr "other";
       r_firstName := JStr "Mallory"; r_lastName := JNull; r_other := [] |}
    "pepper" "u2" 6 =
    (reply 400 (Message "User already exists"), snd first).
Proof.
  apply (second_registration_is_rejected toyPlatform emptyDb newcomer "salt"
           "u1" 5); [reflexivity|discriminate].
Defined.

(** A 200 from login names a stored user with the given email whose
    stored hash the password, a string, verifies against. *)
Lemma login_cases P st b :
  status (login P st b) <> 200 \/
  exists uid u password,
    In (uid, u) (users st) /\
    u_email u = l_email b /\
    l_password b = JStr password /\
    bcrypt_compare P password (u_password u) = true /\
    login P st b =
      reply 200
        (AuthBody "Login successful"
           (jwt_sign P {| c_userId := uid; c_role := u_role u |})
           uid (u_email u) (u_firstName u) (u_lastName u) (u_role u)).
Proof.
  unfold login.
  destruct (writable (l_email b)); cbn [negb]; [|left; discriminate].
  destruct (where_ (fun u => jsEq (u_email u) (l_email b)) (users st))
    as [|[uid u] rest] eqn:Hw; [left; discriminate|].
  assert (Hin : In (uid, u) (where_ (fun u => jsEq (u_email u) (l_email b))
                               (users st)))
    by (rewrite Hw; left; reflexivity).
  apply In_where in Hin. destruct Hin as [Hin He]. simpl in He.
  apply jsEq_eq in He.
  destruct (l_password b) as [| | | |password| |]; try (left; discriminate).
  destruct (bcrypt_compare P password (u_password u)) eqn:Hc;
    [|left; discriminate].
  right. exists uid, u, password. repeat split; assumption || reflexivity.
Qed.

(** The documents a query by email returns when one stored user holds
    it. *)
Lemma where_email_holder st email uid u :
  In (uid, u) (users st) ->
  u_email u = email ->
  (forall uid' u', In (uid', u') (users st) -> u_email u' = email ->
                   (uid', u') = (uid, u)) ->
  exists rest,
    where_ (fun u0 => jsEq (u_email u0) email) (users st) = (uid, u) :: rest.
Proof.
  intros Hin He Hone.
  destruct (where_ (fun u0 => jsEq (u_email u0) email) (users st))
    as [|[uid' u'] rest] eqn:Hw.
  - pose proof (proj1 (where_nil_iff _ _) Hw uid u Hin) as Hf.
    simpl in Hf. rewrite He, jsEq_refl in Hf. discriminate Hf.
  - assert (Hin' : In (uid', u')
                     (where_ (fun u0 => jsEq (u_email u0) email) (users st)))
      by (rewrite Hw; left; reflexivity).
    apply In_where in Hin'. destruct Hin' as [Hin' He']. simpl in He'.
    apply jsEq_eq in He'. rewrite (Hone uid' u' Hin' He').
    exists rest. reflexivity.
Qed.

(** X4. The answers of login.  It answers 200 only for a stored user with
    the given email whose stored hash the password, a string, verifies
    against, signing that user's id and stored role.  When one stored
    user holds the email and the password is a string, the answer is that
    200 if the password verifies and 400 ['Invalid credentials'] if not;
    the same 400 is the answer for a string email no stored user has,
    whatever the password.  A request without email, and one whose
    password is not a string for an email some user has, are answered
    500. *)
Theorem login_succeeds_or_says_invalid_credentials P st b :
  (status (login P st b) = 200 ->
   exists uid u password,
     In (uid, u) (users st) /\
     u_email u = l_email b /\
     l_password b = JStr password /\
     bcrypt_compare P password (u_password u) = true /\
     login P st b =
       reply 200
         (AuthBody "Login successful"
            (jwt_sign P {| c_userId := uid; c_role := u_role u |})
            uid (u_email u) (u_firstName u) (u_lastName u) (u_role u))) /\
  (forall uid u email,
     l_email b = JStr email ->
     In (uid, u) (users st) ->
     u_email u = JStr email ->
     (forall uid' u', In (uid', u') (users st) -> u_email u' = JStr email ->
                      (uid', u') = (uid, u)) ->
     (forall password,
        l_password b = JStr password ->
        login P st b =
          if bcrypt_compare P password (u_password u)
          then reply 200
                 (AuthBody "Login successful"
                    (jwt_sign P {| c_userId := uid; c_role := u_role u |})
                    uid (u_email u) (u_firstName u) (u_lastName u) (u_role u))
          else reply 400 (Message "Invalid credentials")) /\
     ((forall password, l_password b <> JStr password) ->
      login P st b = serverError)) /\
  (forall email,
     l_email b = JStr email ->
     (forall uid u, In (uid, u) (users st) -> u_email u <> JStr email) ->
     login P st b = reply 400 (Message "Invalid credentials")) /\
  (l_email b = JUndefined -> login P st b = serverError).
Proof.
  split; [|split; [|split]].
  - intros Hok. destruct (login_cases P st b) as [Hbad|H];
      [contradiction|exact H].
  - intros uid u email Hb Hin He Hone.
    destruct (where_email_holder st (JStr email) uid u Hin He Hone)
      as [rest Hw].
    unfold login. rewrite Hb, Hw. cbn [writable negb]. split.
    + intros password Hpw. rewrite Hpw.
      destruct (bcrypt_compare P password (u_password u)); reflexivity.
    + intros Hpw. destruct (l_password b) as [| | | |password| |];
        try reflexivity.
      exfalso. apply (Hpw password). reflexivity.
  - intros email Hb Hnone. unfold login. rewrite Hb. cbn [writable negb].
    assert (Hw : where_ (fun u => jsEq (u_email u) (JStr email)) (users st)
                 = []).
    { apply where_nil_iff. intros id u Hin. apply jsEq_neq.
      apply (Hnone id u Hin). }
    rewrite Hw. reflexivity.
  - intros Hb. unfold login. rewrite Hb. reflexivity.
Qed.

Lemma login_succeeds_or_says_invalid_credentials_witness :
  let st := snd (register toyPlatform emptyDb newcomer "salt" "u1" 5) in
  status (login toyPlatform st
            {| l_email := JStr "alice@x.com"; l_password := JStr "s3cret" |})
    = 200 /\
  login toyPlatform st
    {| l_email := JStr "alice@x.com"; l_password := JStr "guess" |}
    = reply 400 (Message "Invalid credentials") /\
  login toyPlatform st
    {| l_email := JStr "bob@x.com"; l_password := JStr "s3cret" |}
    = reply 400 (Message "Invalid credentials") /\
  login toyPlatform st
    {| l_email := JStr "alice@x.com"; l_password := JUndefined |}
    = serverError.
Proof.
  cbv zeta.
  set (st := snd (register toyPlatform emptyDb newcomer "salt" "u1" 5)).
  assert (Hone : forall uid' u',
             In (uid', u') (users st) -> u_email u' = JStr "alice@x.com" ->
             (uid', u') =
             ("u1", {| u_email := JStr "alice@x.com";
                       u_password := "$2a$12$s3cret";
                       u_firstName := JStr "Alice";
                       u_lastName := JStr "A";
                       u_role := "user";
                       u_createdAt := 5;
                       u_updatedAt := 5 |})).
  { intros uid' u' [H|[]] _. symmetry. exact H. }
  split; [|split; [|split]].
  - destruct (login_succeeds_or_says_invalid_credentials toyPlatform st
                {| l_email := JStr "alice@x.com";
                   l_password := JStr "s3cret" |}) as (_ & Hheld & _).
    destruct (Hheld "u1" _ "alice@x.com" eq_refl (or_introl eq_refl) eq_refl
                Hone) as [Hpw _].
    rewrite (Hpw "s3cret" eq_refl). reflexivity.
  - destruct (login_succeeds_or_says_invalid_credentials toyPlatform st
                {| l_email := JStr "alice@x.com";
                   l_password := JStr "guess" |}) as (_ & Hheld & _).
    destruct (Hheld "u1" _ "alice@x.com" eq_refl (or_introl eq_refl) eq_refl
                Hone) as [Hpw _].
    rewrite (Hpw "guess" eq_refl). reflexivity.
  - destruct (login_succeeds_or_says_invalid_credentials toyPlatform st
                {| l_email := JStr "bob@x.com";
                   l_password := JStr "s3cret" |}) as (_ & _ & Hnone & _).
    apply (Hnone "bob@x.com" eq_refl).
    intros uid u [H|[]]. inversion H. discriminate.
  - destruct (login_succeeds_or_says_invalid_credentials toyPlatform st
                {| l_email := JStr "alice@x.com";
                   l_password := JUndefined |}) as (_ & Hheld & _).
    destruct (Hheld "u1" _ "alice@x.com" eq_refl (or_introl eq_refl) eq_refl
                Hone) as [_ Hpw].
    apply Hpw. intros password. discriminate.
Defined.

Lemma register_roles P st b salt newId now :
  rolesAreUser st -> rolesAreUser (snd (register P st b salt newId now)).
Proof.
  intros H.
  destruct (register_cases P st b salt newId now)
    as [[-> _]|(password & _ & _ & _ & _ & _ & ->)]; [exact H|].
  intros id u. cbn [snd users with_users]. unfold add.
  rewrite in_app_iff. intros [Hin|[Heq|[]]]; [apply (H id u Hin)|].
  inversion Heq; subst. reflexivity.
Qed.

Lemma step_users P svc st st' :
  step P svc st st' ->
  users st' = users st \/
  exists b salt newId now, st' = snd (register P st b salt newId now).
Proof.
  intros Hstep. destruct Hstep.
  - right. eauto.
  - left. unfold route_createProject.
    destruct (auth P authorization) as [denied|caller]; [reflexivity|].
    destruct (createProject_cases st caller b newId now)
      as [[-> _]|(p & -> & _)]; reflexivity.
  - left. unfold route_createDesign.
    destruct (auth P authorization) as [denied|caller]; [reflexivity|].
    destruct (createDesign_cases st caller b newId now)
      as [[-> _]|(dd & pid & p & -> & _)]; reflexivity.
  - left. unfold route_generate.
    destruct (auth P authorization) as [denied|caller]; [reflexivity|].
    destruct (generateVersions_cases svc st caller id b now)
      as [[-> _]|(did & d0 & urls & _ & _ & _ & _ & ->)]; reflexivity.
  - left.
    destruct (upload_cases P st authorization req newId now)
      as [[-> _]|(caller & t & _ & _ & ->)]; reflexivity.
Qed.

Lemma reachable_roles P svc st : reachable P svc st -> rolesAreUser st.
Proof.
  induction 1 as [|st st' _ IH Hstep]; [intros id u []|].
  destruct (step_users _ _ _ _ Hstep) as [Heq|(b & salt & newId & now & ->)].
  - unfold rolesAreUser. rewrite Heq. exact IH.
  - apply register_roles. exact IH.
Qed.

(** X5. No sequence of API requests can produce an account above the
    least-privileged role: on every store the API can build, each stored
    user has role ['user'], and a successful login signs role ['user']. *)
Theorem api_never_issues_admin_role P svc st b :
  reachable P svc st ->
  rolesAreUser st /\
  (status (login P st b) = 200 ->
   exists uid first last,
     payload (login P st b) =
       AuthBody "Login successful"
         (jwt_sign P {| c_userId := uid; c_role := "user" |})
         uid (l_email b) first last "user").
Proof.
  intros Hr. pose proof (reachable_roles _ _ _ Hr) as Hroles.
  split; [exact Hroles|]. intros Hok.
  destruct (login_cases P st b)
    as [Hbad|(uid & u & password & Hin & He & _ & _ & H200)].
  - contradiction.
  - rewrite H200. cbn [payload reply].
    rewrite (Hroles uid u Hin), He. eauto.
Qed.

Lemma api_never_issues_admin_role_witness :
  let st := snd (register toyPlatform emptyDb newcomer "salt" "u1" 5) in
  let b := {| l_email := JStr "alice@x.com"; l_password := JStr "s3cret" |} in
  rolesAreUser st /\
  (status (login toyPlatform st b) = 200 ->
   exists uid first last,
     payload (login toyPlatform st b) =
       AuthBody "Login successful"
         (jwt_sign toyPlatform {| c_userId := uid; c_role := "user" |})
         uid (l_email b) first last "user").
Proof.
  apply (api_never_issues_admin_role toyPlatform offline).
  apply (reach_step toyPlatform offline emptyDb).
  - apply reach_empty.
  - apply (step_register toyPlatform offline emptyDb newcomer "salt" "u1" 5).
Defined.




End AccountFacts.

(* ===================================================================== *)
(** ** Designs over time: ownership, isolation, append-only images *)
(* ===================================================================== *)

Module DesignFacts.
Import Gen Store Server Model StoreFacts GenerateFacts HandlerFacts Invariants
  Sample.

(** The shape of one request's effect on projects and designs. *)
Lemma step_shape P svc st st' :
  step P svc st st' ->
  (projects st' = projects st /\ designs st' = designs st) \/
  (designs st' = designs st /\
   exists newId p, projects st' = add newId p (projects st)) \/
  (projects st' = projects st /\
   exists newId dd pid p,
     designs st' = add newId dd (designs st) /\
     projectId dd <> "" /\
     docId (JStr (projectId dd)) = Resolved (Some pid) /\
     get pid (projects st) = Some p /\
     userId dd = p_userId p) \/
  (projects st' = projects st /\
   exists id0 d0 urls c now,
     get id0 (designs st) = Some d0 /\
     designs st' = update id0 (mergeGenerated d0 urls c now) (designs st)).
Proof.
  intros Hstep. destruct Hstep.
  - left.
    destruct (register_cases P st b salt newId now)
      as [[-> _]|(password & _ & _ & _ & _ & _ & ->)]; split; reflexivity.
  - unfold route_createProject.
    destruct (auth P authorization) as [r|caller]; [left; split; reflexivity|].
    destruct (createProject_cases st caller b newId now)
      as [[-> _]|(p & -> & _)]; [left; split; reflexivity|].
    right; left. split; [reflexivity|]. eexists. eexists. reflexivity.
  - unfold route_createDesign.
    destruct (auth P authorization) as [r|caller]; [left; split; reflexivity|].
    destruct (createDesign_cases st caller b newId now)
      as [[-> _]|(dd & pid & p & -> & _ & Hne & Hdoc & Hp & Hown & Hu & _)];
      [left; split; reflexivity|].
    right; right; left. split; [reflexivity|].
    exists newId, dd, pid, p. repeat split; try assumption; congruence.
  - unfold route_generate.
    destruct (auth P authorization) as [r|caller]; [left; split; reflexivity|].
    destruct (generateVersions_cases svc st caller id b now)
      as [[-> _]|(did & d0 & urls & _ & Hd & _ & _ & ->)];
      [left; split; reflexivity|].
    right; right; right. split; [reflexivity|].
    exists did, d0, urls, (countOrDefault b), now.
    split; [exact Hd|reflexivity].
  - left.
    destruct (upload_cases P st authorization req newId now)
      as [[-> _]|(caller & t & _ & _ & ->)]; split; reflexivity.
Qed.

Lemma step_ownerCopied P svc st st' :
  consistent st -> ownerCopied st -> step P svc st st' -> ownerCopied st'.
Proof.
  intros Hc Ho Hstep id d pid p.
  destruct (step_shape _ _ _ _ Hstep)
    as [[Hp Hd]|[[Hd (newId & p0 & Hp)]
       |[[Hp (newId & dd & pid0 & p0 & Hd & Hne & Hdoc0 & Hp0 & Hu)]
        |[Hp (id0 & d0 & urls & c & now & Hd0 & Hd)]]]];
    rewrite Hp, Hd.
  - apply Ho.
  - intros Hgd Hdoc Hgp.
    destruct (Hc id d Hgd) as [_ (pid1 & p1 & Hdoc1 & Hp1)].
    rewrite Hdoc in Hdoc1. inversion Hdoc1; subst pid1.
    rewrite (get_add_keeps _ _ _ _ _ Hp1) in Hgp. inversion Hgp; subst p1.
    apply (Ho id d pid p Hgd Hdoc Hp1).
  - intros Hgd. apply get_add_inv in Hgd.
    destruct Hgd as [Hg|(_ & _ & ->)].
    + apply (Ho id d pid p Hg).
    + intros Hdoc Hgp. rewrite Hdoc0 in Hdoc. inversion Hdoc; subst pid0.
      congruence.
  - destruct (String.eqb_spec id id0) as [->|Hne].
    + rewrite get_update, Hd0. simpl. intros H. inversion H; subst d.
      simpl. apply (Ho id0 d0 pid p Hd0).
    + rewrite (get_update_other _ _ _ _ Hne). apply Ho.
Qed.

(** X7. On every store the API can build, each stored design has a
    stored parent project, and the design's [userId] is a copy of that
    project's owner. *)
Theorem reachable_owner_copied P svc st :
  reachable P svc st -> consistent st /\ ownerCopied st.
Proof.
  intros Hr.
  induction Hr as [|st st' _ [IHc IHo] Hstep].
  - split; [apply consistent_empty|]. intros id d pid p H.
    cbn [emptyDb designs] in H. rewrite get_nil in H. discriminate H.
  - split; [apply (step_consistent _ _ _ _ IHc Hstep)|].
    apply (step_ownerCopied _ _ _ _ IHc IHo Hstep).
Qed.

Lemma afterDesign_reachable : reachable toyPlatform offline afterDesign.
Proof.
  apply (reach_step toyPlatform offline afterProject).
  - apply (reach_step toyPlatform offline emptyDb); [apply reach_empty|].
    apply (step_createProject toyPlatform offline emptyDb aliceHeader
             aliceProjectBody "p1" 10).
  - apply (step_createDesign toyPlatform offline afterProject aliceHeader
             offerBody "d1" 20).
Defined.

Lemma reachable_owner_copied_witness :
  consistent afterDesign /\ ownerCopied afterDesign.
Proof.
  apply (reachable_owner_copied toyPlatform offline).
  exact afterDesign_reachable.
Defined.




(** X9. A generate request touches one design of the caller at most: the
    users, projects and training data are unchanged, every design other
    than the one the route id names is unchanged, every design owned by
    someone else is unchanged, and an answer other than 200 leaves the
    whole store as it was.  (The route id names a design as a path: with
    a leading or a trailing slash it still names that design.) *)
Theorem generate_touches_only_the_callers_design
    P svc st h caller id b now :
  auth P h = inr caller ->
  let r := route_generate P svc st h id b now in
  users (snd r) = users st /\
  projects (snd r) = projects st /\
  trainingData (snd r) = trainingData st /\
  (forall id', docId (JStr id) <> Resolved (Some id') ->
     get id' (designs (snd r)) = get id' (designs st)) /\
  (forall id' d', get id' (designs st) = Some d' ->
     userId d' <> c_userId caller ->
     get id' (designs (snd r)) = Some d') /\
  (status (fst r) <> 200 -> snd r = st).
Proof.
  intros Hauth r. subst r. unfold route_generate. rewrite Hauth.
  destruct (generateVersions_cases svc st caller id b now)
    as [[Hst Hs]|(did & d0 & urls & Hdoc & Hd & Hu & Hs & Hst)]; rewrite Hst.
  - repeat split; auto.
  - cbn [users projects trainingData designs with_designs].
    repeat split.
    + intros id' Hne. apply get_update_other. intros E. subst id'.
      apply Hne. exact Hdoc.
    + intros id' d' Hg Hother.
      destruct (String.eqb_spec id' did) as [->|Hne].
      * rewrite Hd in Hg. inversion Hg; subst d0. congruence.
      * rewrite (get_update_other _ _ _ _ Hne). exact Hg.
    + intros Hbad. rewrite Hs in Hbad. congruence.
Qed.

Lemma generate_touches_only_the_callers_design_witness :
  let r := route_generate toyPlatform offline shop bobHeader "d2"
             {| g_count := CountNum 2; g_provider := JStr "qwen" |} 30 in
  users (snd r) = users shop /\
  projects (snd r) = projects shop /\
  trainingData (snd r) = trainingData shop /\
  (forall id', docId (JStr "d2") <> Resolved (Some id') ->
     get id' (designs (snd r)) = get id' (designs shop)) /\
  (forall id' d', get id' (designs shop) = Some d' ->
     userId d' <> c_userId bob ->
     get id' (designs (snd r)) = Some d') /\
  (status (fst r) <> 200 -> snd r = shop).
Proof.
  apply (generate_touches_only_the_callers_design toyPlatform offline shop
           bobHeader bob "d2"). reflexivity.
Defined.

(** X10. The refusals of the generate route, in the order they are
    checked, none of which changes the store.  A route id [doc] refuses
    is 500: such is every id of two segments ([a/b], sent as [a%2Fb]).
    A route id that names no stored design is 404 ['Design not found'];
    a design of another user is 403 ['Access denied'], whether or not its
    project exists; a design of the caller whose [projectId] names no
    stored project is 404 ['Project not found']. *)
Theorem generate_refusals P svc st h caller id b now :
  auth P h = inr caller ->
  (docId (JStr id) = Rejected ->
   route_generate P svc st h id b now = (serverError, st)) /\
  (forall a c, a <> "" -> c <> "" -> hasSlash a = false -> hasSlash c = false ->
     docId (JStr (a ++ "/" ++ c)) = Rejected) /\
  (docId (JStr id) = Resolved None ->
   route_generate P svc st h id b now =
     (reply 404 (Message "Design not found"), st)) /\
  (forall did, docId (JStr id) = Resolved (Some did) ->
     get did (designs st) = None ->
     route_generate P svc st h id b now =
       (reply 404 (Message "Design not found"), st)) /\
  (forall did d, docId (JStr id) = Resolved (Some did) ->
     get did (designs st) = Some d ->
     userId d <> c_userId caller ->
     route_generate P svc st h id b now =
       (reply 403 (Message "Access denied"), st)) /\
  (forall did d pid, docId (JStr id) = Resolved (Some did) ->
     get did (designs st) = Some d ->
     userId d = c_userId caller ->
     docId (JStr (projectId d)) = Resolved (Some pid) ->
     get pid (projects st) = None ->
     route_generate P svc st h id b now =
       (reply 404 (Message "Project not found"), st)).
Proof.
  intros Hauth. unfold route_generate, generateVersions. rewrite Hauth.
  split; [|split; [|split; [|split; [|split]]]].
  - intros Hdoc. rewrite Hdoc. reflexivity.
  - apply docId_two_segments.
  - intros Hdoc. rewrite Hdoc. reflexivity.
  - intros did Hdoc Hd. rewrite Hdoc, Hd. reflexivity.
  - intros did d Hdoc Hd Hu. rewrite Hdoc, Hd.
    apply String.eqb_neq in Hu. rewrite Hu. reflexivity.
  - intros did d pid Hdoc Hd Hu Hdoc' Hp. rewrite Hdoc, Hd.
    apply String.eqb_eq in Hu. rewrite Hu. cbn [negb].
    rewrite Hdoc', Hp. reflexivity.
Qed.

Lemma generate_refusals_witness :
  route_generate toyPlatform offline shop bobHeader "d1"
    {| g_count := CountNum 1; g_provider := JStr "qwen" |} 30 =
    (reply 403 (Message "Access denied"), shop) /\
  route_generate toyPlatform offline shop bobHeader "d1/x"
    {| g_count := CountNum 1; g_provider := JStr "qwen" |} 30 =
    (serverError, shop).
Proof.
  split.
  - destruct (generate_refusals toyPlatform offline shop bobHeader bob "d1"
                {| g_count := CountNum 1; g_provider := JStr "qwen" |} 30
                eq_refl) as (_ & _ & _ & _ & Hforeign & _).
    apply (Hforeign "d1" offer); [reflexivity|reflexivity|discriminate].
  - destruct (generate_refusals toyPlatform offline shop bobHeader bob "d1/x"
                {| g_count := CountNum 1; g_provider := JStr "qwen" |} 30
                eq_refl) as (Hpath & Htwo & _).
    apply Hpath.
    apply (Htwo "d1" "x"); [discriminate|discriminate|reflexivity
                           |reflexivity].
Defined.

(** X11. A count above [2^32 - 1] cannot be turned into an array: on a
    design of the caller with an existing project the request is answered
    500 and the store is unchanged. *)
Theorem generate_count_above_array_limit_is_500
    P svc st h caller id b now d project z :
  auth P h = inr caller ->
  get id (designs st) = Some d ->
  userId d = c_userId caller ->
  projectId d <> "" ->
  get (projectId d) (projects st) = Some project ->
  g_count b = CountNum z ->
  (z > 4294967295)%Z ->
  route_generate P svc st h id b now = (reply 500 (Message "Server error"), st).
Proof.
  intros Hauth Hd Hu Hne Hp Hc Hz.
  unfold route_generate, generateVersions.
  rewrite Hauth, (docId_of_get _ _ _ Hd), Hd.
  apply String.eqb_eq in Hu. rewrite Hu. cbn [negb].
  rewrite (docId_of_get _ _ _ Hp), Hp.
  assert (Hf : fanOut svc (projectData project) (content d)
                 (providerOrDefault b) (countOrDefault b) = Rejected).
  { unfold fanOut, arrayFromLength, countOrDefault. rewrite Hc.
    unfold toLength. cbn [toNumber].
    change (2 ^ 32 - 1)%Z with 4294967295%Z.
    change (2 ^ 53 - 1)%Z with 9007199254740991%Z.
    destruct (Z.gtb_spec (Z.min (Z.max z 0) 9007199254740991) 4294967295)
      as [_|Hle]; [reflexivity|lia]. }
  rewrite Hf. reflexivity.
Qed.

Lemma generate_count_above_array_limit_is_500_witness :
  route_generate toyPlatform offline shop aliceHeader "d1"
    {| g_count := CountNum 4294967296; g_provider := JStr "qwen" |} 30 =
    (reply 500 (Message "Server error"), shop).
Proof.
  apply (generate_count_above_array_limit_is_500 toyPlatform offline shop
           aliceHeader alice "d1"
           {| g_count := CountNum 4294967296; g_provider := JStr "qwen" |}
           30 offer banner 4294967296);
    try reflexivity; discriminate.
Defined.

End DesignFacts.

(* ===================================================================== *)
(** ** Generation adapter: prompt text, placeholders, provider listing *)
(* ===================================================================== *)

Module AdapterFacts.
Import Gen Store Server Model StoreFacts GenerateFacts Sample.

Lemma joinWith_concat sep (l : list string) :
  joinWith toStr sep (map JStr l) = Resolved (String.concat sep l).
Proof.
  induction l as [|x rest IH]; [reflexivity|].
  destruct rest as [|y rest]; [reflexivity|].
  change (joinWith toStr sep (map JStr (x :: y :: rest)))
    with (sr <- joinWith toStr sep (map JStr (y :: rest)) ;;
          Resolved (x ++ sep ++ sr)).
  rewrite IH. reflexivity.
Qed.

Lemma contentText_fieldOf fields k :
  contentText (contentOf fields) k = Resolved (fieldOf k fields).
Proof.
  unfold contentText, contentOf, member.
  induction fields as [|[k' v] rest IH]; [reflexivity|].
  simpl. destruct (k =? k'); [|exact IH].
  simpl. destruct (v =? "") eqn:E; simpl; [|reflexivity].
  apply String.eqb_eq in E. subst v. reflexivity.
Qed.

Lemma typed_prompt
    (p : Project) dt colors fonts fields :
  p_designType p = JStr dt ->
  p_brandElements p = brandElementsOf colors fonts ->
  buildPrompt (projectData p) (contentOf fields) =
    Resolved
      (promptText dt
         (textOr "default" (String.concat ", " colors))
         (textOr "modern" (String.concat ", " fonts))
         (fieldOf "title" fields) (fieldOf "copy" fields)
         (fieldOf "description" fields) (fieldOf "cta" fields)
         (fieldOf "footerContent" fields)).
Proof.
  intros Hdt Hbe. unfold buildPrompt.
  rewrite !contentText_fieldOf.
  assert (Hc : brandList (projectData p) "colorPalette" "default"
               = Resolved (textOr "default" (String.concat ", " colors))).
  { unfold brandList, projectData. simpl. rewrite Hbe. simpl.
    rewrite joinWith_concat. reflexivity. }
  assert (Hf : brandList (projectData p) "fonts" "modern"
               = Resolved (textOr "modern" (String.concat ", " fonts))).
  { unfold brandList, projectData. simpl. rewrite Hbe. simpl.
    rewrite joinWith_concat. reflexivity. }
  rewrite Hc, Hf. unfold projectData at 1. simpl member. rewrite Hdt.
  reflexivity.
Qed.

(** X12. For a project and a content shaped as the interfaces declare,
    the prompt is the template filled with the design type, the palette
    joined by [", "] (['default'] when empty), the fonts likewise
    (['modern'] when empty) and the five content fields, each empty when
    absent. *)
Theorem typed_prompt_is_the_filled_template
    (p : Project) dt colors fonts fields :
  p_designType p = JStr dt ->
  p_brandElements p = brandElementsOf colors fonts ->
  buildPrompt (projectData p) (contentOf fields) =
    Resolved
      (promptText dt
         (textOr "default" (String.concat ", " colors))
         (textOr "modern" (String.concat ", " fonts))
         (fieldOf "title" fields) (fieldOf "copy" fields)
         (fieldOf "description" fields) (fieldOf "cta" fields)
         (fieldOf "footerContent" fields)).
Proof. apply typed_prompt. Qed.

Lemma typed_prompt_is_the_filled_template_witness :
  buildPrompt (projectData banner) (contentOf [("title", "50% Off")]) =
    Resolved
      (promptText "social_media"
         (textOr "default" (String.concat ", " []))
         (textOr "modern" (String.concat ", " []))
         (fieldOf "title" [("title", "50% Off")])
         (fieldOf "copy" [("title", "50% Off")])
         (fieldOf "description" [("title", "50% Off")])
         (fieldOf "cta" [("title", "50% Off")])
         (fieldOf "footerContent" [("title", "50% Off")])).
Proof.
  apply (typed_prompt_is_the_filled_template banner "social_media" [] []
           [("title", "50% Off")]); reflexivity.
Defined.

(** X13. The adapter hands out a real image URL in one situation only:
    whatever it resolves to is a URL of the placeholder service, unless
    the provider is ['openai'] (named, or by default) with a client that
    answered with at least one image. *)
Theorem only_live_openai_gives_a_real_url
    svc project content provider k url :
  generateDesign svc project content provider k = Resolved url ->
  isPlaceholder url = true \/
  ((provider = JStr "openai" \/ provider = JUndefined) /\
   exists client prompt first rest,
     openai svc = Some client /\
     buildPrompt project content = Resolved prompt /\
     client k prompt = ApiData (first :: rest)).
Proof.
  unfold generateDesign.
  destruct (buildPrompt project content) as [prompt|] eqn:Hp;
    [|discriminate].
  cbv beta iota delta [bind].
  set (prov := match provider with JUndefined => JStr "openai" | _ => provider end).
  destruct (dispatch svc prompt prov k) as [u|] eqn:Hd.
  - intros H. inversion H; subst u. clear H.
    assert (Hprov : exists q, prov = JStr q /\
                      (q = "openai" -> provider = JStr "openai" \/
                                       provider = JUndefined)).
    { subst prov. destruct provider; try discriminate Hd.
      - exists "openai". split; [reflexivity|]. right. reflexivity.
      - exists s. split; [reflexivity|]. intros ->. left. reflexivity. }
    destruct Hprov as (q & Hq & Hopen). rewrite Hq in Hd. unfold dispatch in Hd.
    destruct (q =? "openai") eqn:Eo.
    + apply String.eqb_eq in Eo.
      destruct (openai svc) as [client|] eqn:Hc;
        [|inversion Hd; left; reflexivity].
      destruct (client k prompt) as [|[|first rest]] eqn:Hr;
        try discriminate Hd.
      right. split; [apply Hopen; exact Eo|].
      exists client, prompt, first, rest. repeat split; assumption.
    + destruct (q =? "gemini").
      * inversion Hd. left. destruct (gemini svc); reflexivity.
      * destruct (q =? "qwen"); inversion Hd; left; reflexivity.
  - destruct (toStr prov); [|discriminate].
    intros H. inversion H. left. reflexivity.
Qed.

Lemma only_live_openai_gives_a_real_url_witness :
  isPlaceholder
    "https://via.placeholder.com/1024x1024/6B7280/FFFFFF?text=Demo+Design+DALLE"
    = true \/
  ((JStr "dalle" = JStr "openai" \/ JStr "dalle" = JUndefined) /\
   exists client prompt first rest,
     openai offline = Some client /\
     buildPrompt (projectData banner) (content offer) = Resolved prompt /\
     client 0%nat prompt = ApiData (first :: rest)).
Proof.
  apply (only_live_openai_gives_a_real_url offline (projectData banner)
           (content offer) (JStr "dalle") 0). reflexivity.
Defined.

(** X14. The providers listing and the adapter agree for openai and
    gemini.  With the service handles created at start-up from the same
    environment: a provider listed as unavailable answers with its
    ['Not Configured'] placeholder; gemini listed as available answers
    with its fixed ['Generated'] placeholder; openai listed as available
    answers with the first image URL of the live reply (empty when that
    image has none), or the error placeholder when the call throws or
    returns no image. *)
Theorem listing_agrees_with_adapter e live project content k prompt ps :
  buildPrompt project content = Resolved prompt ->
  payload (listProviders e) = ProvidersBody ps ->
  let run provider :=
    generateDesign (initServices e live) project content (JStr provider) k in
  (In ("openai", false) ps -> run "openai" = Resolved url_openai_not_configured) /\
  (In ("gemini", false) ps -> run "gemini" = Resolved url_gemini_not_configured) /\
  (In ("gemini", true) ps -> run "gemini" = Resolved url_gemini_generated) /\
  (In ("openai", true) ps ->
   run "openai" =
     Resolved match live k prompt with
              | ApiData (Some u :: _) => u
              | ApiData (None :: _) => ""
              | _ => url_error
              end).
Proof.
  intros Hp Hps run. subst run. unfold listProviders in Hps.
  cbn [payload reply] in Hps. inversion Hps; subst ps. clear Hps.
  unfold generateDesign. rewrite Hp. cbv beta iota delta [bind].
  unfold dispatch, initServices. cbn [openai gemini].
  repeat split.
  - intros [H|[H|[H|[]]]]; try discriminate H.
    inversion H as [Ha]. rewrite Ha. reflexivity.
  - intros [H|[H|[H|[]]]]; try discriminate H.
    inversion H as [Ha]. simpl. rewrite Ha. reflexivity.
  - intros [H|[H|[H|[]]]]; try discriminate H.
    inversion H as [Ha]. simpl. rewrite Ha. reflexivity.
  - intros [H|[H|[H|[]]]]; try discriminate H.
    inversion H as [Ha]. rewrite Ha. simpl.
    destruct (live k prompt) as [|[|[u|] rest]]; reflexivity.
Qed.

Lemma listing_agrees_with_adapter_witness :
  let run provider :=
    generateDesign (initServices qwenKeyOnly deadClient) (projectData banner)
      (content offer) (JStr provider) 0 in
  (In ("openai", false)
      [("openai", false); ("gemini", false); ("qwen", true)] ->
   run "openai" = Resolved url_openai_not_configured) /\
  (In ("gemini", false)
      [("openai", false); ("gemini", false); ("qwen", true)] ->
   run "gemini" = Resolved url_gemini_not_configured) /\
  (In ("gemini", true)
      [("openai", false); ("gemini", false); ("qwen", true)] ->
   run "gemini" = Resolved url_gemini_generated) /\
  (In ("openai", true)
      [("openai", false); ("gemini", false); ("qwen", true)] ->
   run "openai" =
     Resolved match deadClient 0%nat offerPrompt with
              | ApiData (Some u :: _) => u
              | ApiData (None :: _) => ""
              | _ => url_error
              end).
Proof.
  apply (listing_agrees_with_adapter qwenKeyOnly deadClient
           (projectData banner) (content offer) 0 offerPrompt); reflexivity.
Defined.

End AdapterFacts.

(* ===================================================================== *)
(** ** Versions over time, and generation on well-shaped data *)
(* ===================================================================== *)

Module VersionFacts.
Import Gen Store Server Model StoreFacts GenerateFacts HandlerFacts Invariants
  DesignFacts Sample.

Lemma register_designs P st b salt newId now :
  designs (snd (register P st b salt newId now)) = designs st.
Proof.
  destruct (register_cases P st b salt newId now)
    as [[-> _]|(password & _ & _ & _ & _ & _ & ->)]; reflexivity.
Qed.

Lemma createProject_designs P st h b newId now :
  designs (snd (route_createProject P st h b newId now)) = designs st.
Proof.
  unfold route_createProject.
  destruct (auth P h) as [denied|caller]; [reflexivity|].
  destruct (createProject_cases st caller b newId now)
    as [[-> _]|(p & -> & _)]; reflexivity.
Qed.

Lemma upload_designs P st h req newId now :
  designs (snd (route_uploadTrainingData P st h req newId now)) = designs st.
Proof.
  destruct (upload_cases P st h req newId now)
    as [[-> _]|(caller & t & _ & _ & ->)]; reflexivity.
Qed.

Lemma naturalStep_versions P svc st st' :
  (forall id d, get id (designs st) = Some d -> versionMatches d) ->
  naturalStep P svc st st' ->
  forall id d, get id (designs st') = Some d -> versionMatches d.
Proof.
  intros IH Hstep. destruct Hstep as [ | | h b newId now | h id0 b now Hpos | ].
  - rewrite register_designs. exact IH.
  - rewrite createProject_designs. exact IH.
  - unfold route_createDesign.
    destruct (auth P h) as [r|caller]; [exact IH|].
    destruct (createDesign_cases st caller b newId now)
      as [[-> _]|(dd & pid & p & -> & _ & _ & _ & _ & _ & _ & Himg & Hver
                  & _)];
      [exact IH|].
    intros id d. cbn [snd designs with_designs]. rewrite get_add.
    destruct (get id (designs st)) as [x|] eqn:Hg.
    + intros H. inversion H; subst x. apply (IH id d Hg).
    + destruct (validId id && (newId =? id)); [|discriminate].
      intros H. inversion H; subst d.
      unfold versionMatches. rewrite Himg, Hver. reflexivity.
  - unfold route_generate.
    destruct (auth P h) as [r|caller]; [exact IH|].
    destruct (generateVersions_cases svc st caller id0 b now)
      as [[-> _]|(did & d0 & urls & Hdoc & Hd0 & _ & Hok & Hst)];
      [exact IH|].
    intros id d Hg.
    destruct (String.eqb_spec id did) as [->|Hne].
    + destruct (generate_keeps_invariant_nonneg svc st caller id0 b now did
                  d0 _ _ Hdoc Hd0 (IH did d0 Hd0) Hpos
                  (surjective_pairing _) Hok) as (d' & Hg' & Hv').
      rewrite Hg in Hg'. inversion Hg'; subst d'. exact Hv'.
    + rewrite Hst in Hg. cbn [designs with_designs] in Hg.
      rewrite (get_update_other _ _ _ _ Hne) in Hg. apply (IH id d Hg).
  - rewrite upload_designs. exact IH.
Qed.

(** X15. As long as every generate request carries a count that is
    absent, [null], a boolean or a non-negative integer, the version
    counter of every stored design equals the number of its generated
    images, on every store the API builds. *)
Theorem natural_counts_keep_versions_in_step P svc st :
  naturallyReachable P svc st ->
  forall id d, get id (designs st) = Some d -> versionMatches d.
Proof.
  induction 1 as [|st st' _ IH Hstep].
  - intros id d H. cbn [emptyDb designs] in H. rewrite get_nil in H.
    discriminate H.
  - apply (naturalStep_versions _ _ _ _ IH Hstep).
Qed.

Lemma natural_counts_keep_versions_in_step_witness :
  versionMatches
    {| projectId := "p1";
       userId := "alice";
       content := JObj [("title", JStr "50% Off")];
       baseReferenceImage := JNull;
       generatedImages := [url_qwen_generated; url_qwen_generated];
       currentVersion := 2;
       isActive := true;
       createdAt := 20;
       updatedAt := 30 |}.
Proof.
  apply (natural_counts_keep_versions_in_step toyPlatform offline
           (snd (route_generate toyPlatform offline afterDesign aliceHeader
                   "d1" {| g_count := CountNum 2; g_provider := JStr "qwen" |}
                   30))) with (id := "d1"); [|reflexivity].
  apply (nreach_step toyPlatform offline afterDesign).
  - apply (nreach_step toyPlatform offline afterProject).
    + apply (nreach_step toyPlatform offline emptyDb); [apply nreach_empty|].
      apply (nstep_createProject toyPlatform offline emptyDb aliceHeader
               aliceProjectBody "p1" 10).
    + apply (nstep_createDesign toyPlatform offline afterProject aliceHeader
               offerBody "d1" 20).
  - apply (nstep_generate toyPlatform offline afterDesign aliceHeader "d1"
             {| g_count := CountNum 2; g_provider := JStr "qwen" |} 30).
    vm_compute. discriminate.
Defined.

(** X16. On data shaped as the interfaces declare, generation cannot
    fail: for a design of the caller with string content fields, under a
    project with a string design type and string lists as palette and
    fonts, a generate request naming any provider and a count [n] up to
    [2^32 - 1] is answered 200 with [n] new versions. *)
Theorem generate_on_typed_data_is_200
    P svc st h caller id b now d project dt colors fonts fields prov (n : nat) :
  auth P h = inr caller ->
  get id (designs st) = Some d ->
  userId d = c_userId caller ->
  projectId d <> "" ->
  get (projectId d) (projects st) = Some project ->
  p_designType project = JStr dt ->
  p_brandElements project = brandElementsOf colors fonts ->
  content d = contentOf fields ->
  g_provider b = JStr prov ->
  g_count b = CountNum (Z.of_nat n) ->
  (Z.of_nat n <= 4294967295)%Z ->
  exists urls,
    List.length urls = n /\
    fst (route_generate P svc st h id b now) =
      reply 200
        (GeneratedBody "New versions generated successfully" urls
           (currentVersion d + Z.of_nat n)%Z (JStr prov)).
Proof.
  intros Hauth Hd Hu Hne Hp Hdt Hbe Hcontent Hprov Hc Hn.
  destruct (buildPrompt_typed project dt colors fonts fields Hdt Hbe)
    as [prompt Hprompt].
  rewrite <- Hcontent in Hprompt.
  assert (Hcount : countOrDefault b = CountNum (Z.of_nat n))
    by (unfold countOrDefault; rewrite Hc; reflexivity).
  assert (Hpr : providerOrDefault b = JStr prov)
    by (unfold providerOrDefault; rewrite Hprov; reflexivity).
  destruct (promiseAll_all_resolved
              (generateDesign svc (projectData project) (content d)
                 (JStr prov)) (seq 0 n)) as [urls Hurls].
  { intros k _. apply (generateDesign_resolves _ _ _ _ _ _ Hprompt). }
  assert (Hf : fanOut svc (projectData project) (content d)
                 (providerOrDefault b) (countOrDefault b) = Resolved urls).
  { rewrite Hcount, Hpr. unfold fanOut, arrayFromLength, toLength.
    cbn [toNumber].
    change (2 ^ 32 - 1)%Z with 4294967295%Z.
    change (2 ^ 53 - 1)%Z with 9007199254740991%Z.
    replace (Z.min (Z.max (Z.of_nat n) 0) 9007199254740991)
      with (Z.of_nat n) by lia.
    destruct (Z.gtb_spec (Z.of_nat n) 4294967295) as [Hgt|_]; [lia|].
    cbn [bind]. rewrite Nat2Z.id. exact Hurls. }
  exists urls. split.
  - apply promiseAll_length in Hurls. rewrite Hurls, length_map, length_seq.
    reflexivity.
  - unfold route_generate. rewrite Hauth.
    rewrite (generateVersions_run _ _ _ _ _ _ _ _ _ Hd Hu Hne Hp Hf).
    rewrite Hcount, Hpr. reflexivity.
Qed.

Lemma generate_on_typed_data_is_200_witness :
  exists urls,
    List.length urls = 4 /\
    fst (route_generate toyPlatform offline shop aliceHeader "d1"
           {| g_count := CountNum 4; g_provider := JStr "midjourney" |} 30) =
      reply 200
        (GeneratedBody "New versions generated successfully" urls
           (currentVersion offer + Z.of_nat 4)%Z (JStr "midjourney")).
Proof.
  apply (generate_on_typed_data_is_200 toyPlatform offline shop aliceHeader
           alice "d1"
           {| g_count := CountNum 4; g_provider := JStr "midjourney" |} 30
           offer banner "social_media" [] [] [("title", "50% Off")]
           "midjourney" 4); try reflexivity; try discriminate.
Defined.

End VersionFacts.

(* ===================================================================== *)
(** ** How the requests compose *)
(* ===================================================================== *)

Module Lifecycle.
Import Gen Store Server Model StoreFacts GenerateFacts HandlerFacts Invariants
  DesignFacts Sample.

(** X17. A project just created (201) under a fresh id accepts designs
    from its creator only.  A create-design request naming it is answered
    404 when it comes from anyone else; from the creator it is answered
    201 when the posted content and base reference image are values the
    store takes, and 500 when not (for one, when the body has no
    [baseReferenceImage]). *)
Theorem new_project_accepts_designs_of_its_creator_only
    P st h caller pb pid now h2 caller2 b newId now2 :
  auth P h = inr caller ->
  get pid (projects st) = None ->
  auth P h2 = inr caller2 ->
  docId (cd_projectId b) = Resolved (Some pid) ->
  let created := route_createProject P st h pb pid now in
  status (fst created) = 201 ->
  status (fst (route_createDesign P (snd created) h2 b newId now2)) =
    if c_userId caller2 =? c_userId caller then
      if writable (if truthy (cd_content b) then cd_content b else JObj [])
         && writable (cd_baseReferenceImage b)
      then 201 else 500
    else 404.
Proof.
  intros Hauth Hfresh Hauth2 Hdoc. cbv zeta.
  unfold route_createProject. rewrite Hauth.
  destruct (createProject_cases st caller pb pid now)
    as [[_ ->]|(p & -> & Hown & _)]; [discriminate|].
  intros _. cbn [snd].
  unfold route_createDesign, createDesign.
  rewrite Hauth2, Hdoc.
  destruct (docId_some _ _ Hdoc) as (Hv & _ & path & ->). cbv zeta.
  cbn [projects with_projects]. rewrite (get_add_fresh _ _ _ Hv Hfresh).
  rewrite Hown, (String.eqb_sym (c_userId caller)).
  destruct (c_userId caller2 =? c_userId caller); cbn [negb];
    [|reflexivity].
  cbn [content baseReferenceImage].
  destruct (_ && _); reflexivity.
Qed.

Lemma new_project_accepts_designs_of_its_creator_only_witness :
  status (fst (route_createDesign toyPlatform afterProject bobHeader
                 offerBody "d7" 25)) = 404 /\
  status (fst (route_createDesign toyPlatform afterProject aliceHeader
                 offerBody "d7" 25)) = 201.
Proof.
  split.
  - apply (new_project_accepts_designs_of_its_creator_only toyPlatform
             emptyDb aliceHeader alice aliceProjectBody "p1" 10 bobHeader bob
             offerBody "d7" 25); reflexivity.
  - apply (new_project_accepts_designs_of_its_creator_only toyPlatform
             emptyDb aliceHeader alice aliceProjectBody "p1" 10 aliceHeader
             alice offerBody "d7" 25); reflexivity.
Defined.

Lemma promiseAll_constant {A : Type} (u : A) (idxs : list nat) :
  promiseAll (map (fun _ => Resolved u) idxs)
    = Resolved (repeat u (List.length idxs)).
Proof.
  induction idxs as [|k rest IH]; [reflexivity|].
  simpl. rewrite IH. reflexivity.
Qed.

(** X18. Create, then generate.  After a design has been created (201)
    under a fresh id, a generate request by the same caller for [n]
    versions from ['qwen'] is answered 200 with [newVersions] made of [n]
    copies of the qwen URL and [totalVersions = n] (the prompt of the
    posted content being buildable, [n] at most [2^32 - 1]). *)
Theorem create_then_generate_qwen
    P svc st h caller b newId now pid p prompt (n : nat) now2 :
  auth P h = inr caller ->
  cd_projectId b = JStr pid ->
  get pid (projects st) = Some p ->
  validId newId = true ->
  get newId (designs st) = None ->
  buildPrompt (projectData p)
    (if truthy (cd_content b) then cd_content b else JObj [])
    = Resolved prompt ->
  (Z.of_nat n <= 4294967295)%Z ->
  let created := route_createDesign P st h b newId now in
  status (fst created) = 201 ->
  fst (route_generate P svc (snd created) h newId
         {| g_count := CountNum (Z.of_nat n); g_provider := JStr "qwen" |}
         now2) =
    reply 200
      (GeneratedBody "New versions generated successfully"
         (repeat url_qwen_generated n) (Z.of_nat n) (JStr "qwen")).
Proof.
  intros Hauth Hb Hp Hv Hfresh Hprompt Hn. cbv zeta.
  unfold route_createDesign. rewrite Hauth.
  destruct (createDesign_cases st caller b newId now)
    as [[_ Hbad]|(dd & pid' & p' & -> & Hpid & Hne & _ & _ & _ & Hu & Himg
                  & Hver & Hcontent & _)]; [intros Hok; contradiction|].
  intros _. cbn [snd].
  rewrite Hb in Hpid. inversion Hpid; subst pid. clear Hpid.
  unfold route_generate. rewrite Hauth.
  set (gb := {| g_count := CountNum (Z.of_nat n); g_provider := JStr "qwen" |}).
  assert (Hg : get newId (designs (with_designs (add newId dd) st)) = Some dd).
  { cbn [designs with_designs]. apply (get_add_fresh _ _ _ Hv Hfresh). }
  assert (Hf : fanOut svc (projectData p) (content dd)
                 (providerOrDefault gb) (countOrDefault gb)
               = Resolved (repeat url_qwen_generated n)).
  { subst gb. cbn [providerOrDefault countOrDefault g_provider g_count].
    rewrite Hcontent.
    unfold fanOut, arrayFromLength, toLength. cbn [toNumber].
    change (2 ^ 32 - 1)%Z with 4294967295%Z.
    change (2 ^ 53 - 1)%Z with 9007199254740991%Z.
    replace (Z.min (Z.max (Z.of_nat n) 0) 9007199254740991)
      with (Z.of_nat n) by lia.
    destruct (Z.gtb_spec (Z.of_nat n) 4294967295) as [Hgt|_]; [lia|].
    cbn [bind]. rewrite Nat2Z.id.
    rewrite (map_ext _ (fun _ => Resolved url_qwen_generated)).
    - rewrite promiseAll_constant, length_seq. reflexivity.
    - intros k. unfold generateDesign. rewrite Hprompt. reflexivity. }
  rewrite (generateVersions_run svc _ caller newId gb now2 dd p _ Hg Hu
             Hne Hp Hf).
  rewrite Hver. reflexivity.
Qed.

Lemma create_then_generate_qwen_witness :
  fst (route_generate toyPlatform offline afterDesign aliceHeader "d1"
         {| g_count := CountNum (Z.of_nat 2); g_provider := JStr "qwen" |}
         30) =
    reply 200
      (GeneratedBody "New versions generated successfully"
         (repeat url_qwen_generated 2) (Z.of_nat 2) (JStr "qwen")).
Proof.
  apply (create_then_generate_qwen toyPlatform offline afterProject
           aliceHeader alice offerBody "d1" 20 "p1"
           {| p_name := JStr "Sale Banner";
              p_description := JStr "";
              p_userId := "alice";
              p_brandElements := defaultBrandElements;
              p_designType := JStr "social_media";
              p_createdAt := 10;
              p_updatedAt := 10 |}
           offerPrompt 2 30); try reflexivity; discriminate.
Defined.



End Lifecycle.

(* ===================================================================== *)
(** ** Listings and the profile *)
(* ===================================================================== *)

Module Listing.
Import Gen Store Server Model StoreFacts Sample.

Section Ordering.
Context {A : Type} (key : A -> Z).

Lemma insertDesc_perm (x : string * A) (l : collection A) :
  Permutation (insertDesc key x l) (x :: l).
Proof.
  induction l as [|y rest IH]; simpl; [reflexivity|].
  destruct (key (snd y) <? key (snd x))%Z; [reflexivity|].
  rewrite IH. apply perm_swap.
Qed.

Lemma orderByDesc_perm (c : collection A) : Permutation (orderByDesc key c) c.
Proof.
  unfold orderByDesc. induction c as [|x rest IH]; simpl; [reflexivity|].
  rewrite insertDesc_perm, IH. reflexivity.
Qed.

Lemma insertDesc_sorted (x : string * A) (l : collection A) :
  newestFirst key l -> newestFirst key (insertDesc key x l).
Proof.
  unfold newestFirst. induction l as [|y rest IH]; simpl; intros Hs.
  - constructor; constructor.
  - apply StronglySorted_inv in Hs. destruct Hs as [Hrest Hall].
    destruct (Z.ltb_spec (key (snd y)) (key (snd x))) as [Hlt|Hge].
    + constructor; [constructor; assumption|].
      constructor; [lia|].
      rewrite Forall_forall in *. intros z Hz. specialize (Hall z Hz). lia.
    + constructor; [apply IH; exact Hrest|].
      rewrite Forall_forall in *. intros z Hz.
      apply In_insertDesc in Hz. destruct Hz as [->|Hz]; [lia|].
      apply (Hall z Hz).
Qed.

Lemma orderByDesc_sorted (c : collection A) : newestFirst key (orderByDesc key c).
Proof.
  unfold orderByDesc. induction c as [|x rest IH]; simpl.
  - constructor.
  - apply insertDesc_sorted. exact IH.
Qed.

End Ordering.

(** X20. The designs of a project are listed newest first, each matching
    design exactly once: the answer is ordered by non-increasing
    [createdAt] and is a rearrangement of the stored designs that carry
    the requested project id and the caller's user id. *)
Theorem designs_are_listed_newest_first P st h caller pid :
  auth P h = inr caller ->
  exists ds,
    route_listDesigns P st h pid = reply 200 (DesignsBody ds) /\
    newestFirst createdAt ds /\
    Permutation ds
      (filter (fun kd => (projectId (snd kd) =? pid)
                         && (userId (snd kd) =? c_userId caller))
         (designs st)).
Proof.
  intros Hauth. unfold route_listDesigns, listDesigns. rewrite Hauth.
  eexists. split; [reflexivity|]. split; [apply orderByDesc_sorted|].
  rewrite orderByDesc_perm. unfold where_.
  assert (Heq : forall l : list (string * Design),
    filter (fun kd => userId (snd kd) =? c_userId caller)
      (filter (fun kd => projectId (snd kd) =? pid) l) =
    filter (fun kd => (projectId (snd kd) =? pid)
                      && (userId (snd kd) =? c_userId caller)) l).
  { induction l as [|x rest IH]; simpl; [reflexivity|].
    destruct (projectId (snd x) =? pid); simpl; [|exact IH].
    destruct (userId (snd x) =? c_userId caller); rewrite IH; reflexivity. }
  rewrite Heq. reflexivity.
Qed.

Lemma designs_are_listed_newest_first_witness :
  exists ds,
    route_listDesigns toyPlatform shop aliceHeader "p1"
      = reply 200 (DesignsBody ds) /\
    newestFirst createdAt ds /\
    Permutation ds
      (filter (fun kd => (projectId (snd kd) =? "p1")
                         && (userId (snd kd) =? c_userId alice))
         (designs shop)).
Proof.
  apply (designs_are_listed_newest_first toyPlatform shop aliceHeader alice
           "p1"). reflexivity.
Defined.

(** X21. The project listing returns the caller's projects and nothing
    else, each once, newest first. *)
Theorem projects_are_listed_for_their_owner_newest_first P st h caller :
  auth P h = inr caller ->
  exists ps,
    route_listProjects P st h = inr ps /\
    newestFirst p_createdAt ps /\
    Permutation ps
      (filter (fun kp => p_userId (snd kp) =? c_userId caller) (projects st)) /\
    (forall id p,
        In (id, p) ps <->
        In (id, p) (projects st) /\ p_userId p = c_userId caller).
Proof.
  intros Hauth. unfold route_listProjects, listProjects. rewrite Hauth.
  eexists. split; [reflexivity|]. split; [apply orderByDesc_sorted|].
  split; [apply orderByDesc_perm|].
  intros id p. rewrite In_orderByDesc, In_where. simpl.
  rewrite String.eqb_eq. reflexivity.
Qed.

Lemma projects_are_listed_for_their_owner_newest_first_witness :
  exists ps,
    route_listProjects toyPlatform shop bobHeader = inr ps /\
    newestFirst p_createdAt ps /\
    Permutation ps
      (filter (fun kp => p_userId (snd kp) =? c_userId bob) (projects shop)) /\
    (forall id p,
        In (id, p) ps <->
        In (id, p) (projects shop) /\ p_userId p = c_userId bob).
Proof.
  apply (projects_are_listed_for_their_owner_newest_first toyPlatform shop
           bobHeader bob). reflexivity.
Defined.



End Listing.

(* ===================================================================== *)
(** ** Training data upload *)
(* ===================================================================== *)

Module Training.
Import Gen Store Server Model StoreFacts HandlerFacts Sample.

(** X23. What a super admin gets from the upload route.  Without a file
    part the answer is 400 ['No image uploaded'].  With one image within
    the limit the answer is 500 if the image pipeline fails, if the tags
    are not a string (the conversion throws), or if the design type or
    the description is absent or otherwise not a value the store takes;
    else it is 201 and exactly one record is added, attributed to the
    caller, pointing at the stored path, holding the posted design type
    and description, not yet processed.  Except in the 201 case the store
    is unchanged. *)
Theorem admin_upload_outcomes P st h caller req newId now :
  auth P h = inr caller ->
  c_role caller = "super_admin" ->
  (files req = [] ->
   route_uploadTrainingData P st h req newId now =
     (reply 400 (Message "No image uploaded"), st)) /\
  (forall f,
     files req = [f] -> fieldname f = "image" ->
     (size f <= fileSizeLimit)%Z ->
     let filename := "training_" ++ string_of_Z now ++ ".jpg" in
     match processAndSaveImage P (buffer f) filename "training",
           parseTags (f_tags req) with
     | Resolved path, Resolved ts =>
         if writable (f_designType req) && writable (f_description req)
         then
           exists t,
             route_uploadTrainingData P st h req newId now =
               (reply 201
                  (TrainingBody "Training data uploaded successfully" newId t),
                with_trainingData (add newId t) st) /\
             uploadedBy t = c_userId caller /\
             imagePath t = path /\
             t_designType t = f_designType req /\
             tags t = ts /\
             t_description t = f_description req /\
             isProcessed t = false
         else
           route_uploadTrainingData P st h req newId now = (serverError, st)
     | _, _ =>
         route_uploadTrainingData P st h req newId now = (serverError, st)
     end).
Proof.
  intros Hauth Hrole. unfold route_uploadTrainingData. rewrite Hauth. split.
  - intros Hf. rewrite Hf. cbn [uploadSingle]. unfold uploadTrainingData.
    rewrite Hrole. reflexivity.
  - intros f Hf Hname Hsize. rewrite Hf. cbn [uploadSingle].
    rewrite Hname. apply Z.leb_le in Hsize. rewrite Hsize.
    change (("image" =? "image") && true) with true. cbv iota.
    unfold uploadTrainingData. rewrite Hrole.
    change (negb ("super_admin" =? "super_admin")) with false. cbv iota.
    cbv zeta.
    destruct (processAndSaveImage P (buffer f)
                ("training_" ++ string_of_Z now ++ ".jpg") "training")
      as [path|]; [|destruct (parseTags (f_tags req)); reflexivity].
    cbn [bind].
    destruct (parseTags (f_tags req)) as [ts|]; [|reflexivity].
    cbn [bind t_designType t_description].
    destruct (writable (f_designType req) && writable (f_description req));
      [|reflexivity].
    eexists. split; [reflexivity|]. repeat split.
Qed.

Lemma admin_upload_outcomes_witness :
  exists t,
    route_uploadTrainingData toyPlatform emptyDb
      (Some "Bearer root.super_admin") (uploadOf [smallImage]) "t1" 50 =
      (reply 201 (TrainingBody "Training data uploaded successfully" "t1" t),
       with_trainingData (add "t1" t) emptyDb) /\
    uploadedBy t = c_userId root /\
    imagePath t = "uploads/training/training_50.jpg" /\
    t_designType t = JStr "print" /\
    tags t = ["poster"; "retro"] /\
    t_description t = JStr "" /\
    isProcessed t = false.
Proof.
  destruct (admin_upload_outcomes toyPlatform emptyDb
              (Some "Bearer root.super_admin") root (uploadOf [smallImage])
              "t1" 50 eq_refl eq_refl) as [_ Hfile].
  apply (Hfile smallImage eq_refl eq_refl). discriminate.
Defined.

(** X24. Only a super admin's successful upload writes anything: the
    upload route never changes users, projects or designs; it changes the
    store only when it answers 201; and it answers 201 only to a caller
    whose token carries role ['super_admin']. *)
Theorem upload_writes_only_for_admin_201 P st h req newId now :
  let r := route_uploadTrainingData P st h req newId now in
  users (snd r) = users st /\
  projects (snd r) = projects st /\
  designs (snd r) = designs st /\
  (status (fst r) <> 201 -> snd r = st) /\
  (status (fst r) = 201 ->
   exists caller, auth P h = inr caller /\ c_role caller = "super_admin").
Proof.
  cbv zeta.
  destruct (upload_cases P st h req newId now)
    as [[Hst Hbad]|(caller & t & Hauth & Hrole & Heq)].
  - rewrite Hst. repeat split; try reflexivity. intros H. contradiction.
  - rewrite Heq. cbn [fst snd users projects designs with_trainingData].
    repeat split.
    + intros H. exfalso. apply H. reflexivity.
    + intros _. exists caller. split; [exact Hauth|exact Hrole].
Qed.

Lemma splitComma_cons (s : string) :
  exists hd tl, splitComma s = hd :: tl.
Proof.
  induction s as [|c rest [hd [tl IH]]]; simpl; [eauto|].
  destruct (Ascii.eqb c ","); [eauto|]. rewrite IH. eauto.
Qed.

(** Splitting at commas loses nothing: joining the parts with commas
    gives the string back. *)
Lemma splitComma_concat (s : string) :
  String.concat "," (splitComma s) = s.
Proof.
  induction s as [|c rest IH]; [reflexivity|].
  cbn [splitComma]. destruct (splitComma_cons rest) as [hd [tl Hs]].
  rewrite Hs in *.
  destruct (Ascii.eqb_spec c ","%char) as [->|Hne].
  - change (String.concat "," ("" :: hd :: tl))
      with ("" ++ "," ++ String.concat "," (hd :: tl)).
    rewrite IH. reflexivity.
  - destruct tl as [|x tl].
    + change (String.concat "," [hd]) with hd in IH. subst rest. reflexivity.
    + change (String.concat "," (hd :: x :: tl))
        with (hd ++ "," ++ String.concat "," (x :: tl)) in IH.
      change (String.concat "," (String c hd :: x :: tl))
        with (String c hd ++ "," ++ String.concat "," (x :: tl)).
      rewrite <- IH. reflexivity.
Qed.

Lemma splitComma_commaFree (s : string) :
  Forall (fun t => commaFree t = true) (splitComma s).
Proof.
  induction s as [|c rest IH]; simpl; [repeat constructor|].
  destruct (Ascii.eqb c ",") eqn:E; [constructor; [reflexivity|exact IH]|].
  destruct (splitComma rest) as [|hd tl]; [repeat constructor; simpl; rewrite E; reflexivity|].
  inversion IH; subst. constructor; [|assumption].
  simpl. rewrite E. assumption.
Qed.

Lemma trimStart_eq (s : string) :
  trimStart s =
  match afterSpace s with Some r => trimStart r | None => s end.
Proof.
  destruct s as [|a r]; [reflexivity|].
  change (trimStart (String a r)) with
    (if space1 a then trimStart r
     else match r with
          | String b r2 =>
              if space2 a b then trimStart r2
              else match r2 with
                   | String c r3 =>
                       if space3 a b c then trimStart r3 else String a r
                   | EmptyString => String a r
                   end
          | EmptyString => String a r
          end).
  unfold afterSpace.
  destruct (space1 a); [reflexivity|].
  destruct r as [|b r2]; [reflexivity|].
  destruct (space2 a b); [reflexivity|].
  destruct r2 as [|c r3]; [reflexivity|].
  destruct (space3 a b c); reflexivity.
Qed.

Lemma afterSpace_split (s r : string) :
  afterSpace s = Some r -> exists w, w <> "" /\ s = w ++ r.
Proof.
  unfold afterSpace.
  destruct s as [|a s1]; [discriminate|].
  destruct (space1 a).
  { intros H. inversion H. exists (String a ""). split; [discriminate|reflexivity]. }
  destruct s1 as [|b s2]; [discriminate|].
  destruct (space2 a b).
  { intros H. inversion H. exists (String a (String b "")).
    split; [discriminate|reflexivity]. }
  destruct s2 as [|c s3]; [discriminate|].
  destruct (space3 a b c); [|discriminate].
  intros H. inversion H. exists (String a (String b (String c ""))).
  split; [discriminate|reflexivity].
Qed.

Lemma afterSpace_app (s r t : string) :
  afterSpace s = Some r -> afterSpace (s ++ t) = Some (r ++ t).
Proof.
  unfold afterSpace.
  destruct s as [|a s1]; [discriminate|]. cbn [String.append].
  destruct (space1 a); [intros H; inversion H; reflexivity|].
  destruct s1 as [|b s2]; [discriminate|]. cbn [String.append].
  destruct (space2 a b); [intros H; inversion H; reflexivity|].
  destruct s2 as [|c s3]; [discriminate|]. cbn [String.append].
  destruct (space3 a b c); [intros H; inversion H; reflexivity|discriminate].
Qed.

Lemma length_append (a b : string) :
  String.length (a ++ b) = String.length a + String.length b.
Proof. induction a as [|c a IH]; simpl; [reflexivity|rewrite IH; reflexivity]. Qed.

(** Induction along the white space at the start of a string. *)
Lemma afterSpace_induction (Q : string -> Prop) :
  (forall s, afterSpace s = None -> Q s) ->
  (forall s r, afterSpace s = Some r -> Q r -> Q s) ->
  forall s, Q s.
Proof.
  intros Hnone Hsome s.
  remember (String.length s) as n eqn:Hn.
  revert s Hn. induction n as [n IH] using lt_wf_ind. intros s Hn.
  destruct (afterSpace s) as [r|] eqn:E; [|apply Hnone; exact E].
  apply (Hsome s r E).
  destruct (afterSpace_split s r E) as (w & Hw & Hs).
  apply (IH (String.length r)); [|reflexivity].
  subst n. rewrite Hs, length_append.
  destruct w; [congruence|]. simpl. lia.
Qed.

Lemma afterSpace_trimStart (s : string) : afterSpace (trimStart s) = None.
Proof.
  induction s as [s E|s r E IH] using afterSpace_induction;
    rewrite trimStart_eq, E; assumption.
Qed.

Lemma trimStart_suffix (s : string) : exists w, s = w ++ trimStart s.
Proof.
  induction s as [s E|s r E [w IH]] using afterSpace_induction;
    rewrite trimStart_eq, E.
  - exists "". reflexivity.
  - destruct (afterSpace_split s r E) as (w0 & _ & Hs).
    exists (w0 ++ w). rewrite Hs at 1. rewrite IH at 1.
    clear. induction w0 as [|c w0 IHw]; simpl; [reflexivity|].
    rewrite IHw. reflexivity.
Qed.

(** White space in front of a string is all stripped. *)
Lemma trimStart_app (a b : string) :
  allSpace a = true -> trimStart (a ++ b) = trimStart b.
Proof.
  unfold allSpace.
  induction a as [a E|a r E IH] using afterSpace_induction.
  - rewrite (trimStart_eq a), E. intros H. apply String.eqb_eq in H.
    subst a. reflexivity.
  - rewrite (trimStart_eq a), E. intros H.
    rewrite (trimStart_eq (a ++ b)), (afterSpace_app _ _ b E).
    apply IH. exact H.
Qed.

(** What [trimEnd] cuts off is white space. *)
Lemma trimEnd_split (s : string) :
  exists t, s = trimEnd s ++ t /\ allSpace t = true.
Proof.
  induction s as [|c rest [t [IH Ht]]]; [exists ""; split; reflexivity|].
  cbn [trimEnd]. destruct (allSpace (String c rest)) eqn:E.
  - exists (String c rest). split; [reflexivity|exact E].
  - exists t. split; [|exact Ht]. cbn [String.append]. rewrite <- IH.
    reflexivity.
Qed.

Lemma trimEnd_idempotent (s : string) : trimEnd (trimEnd s) = trimEnd s.
Proof.
  induction s as [|c rest IH]; [reflexivity|].
  cbn [trimEnd]. destruct (allSpace (String c rest)) eqn:E; [reflexivity|].
  cbn [trimEnd]. rewrite IH.
  destruct (allSpace (String c (trimEnd rest))) eqn:E'; [|reflexivity].
  exfalso. destruct (trimEnd_split rest) as (t & Hrest & Ht).
  pose proof (trimStart_app (String c (trimEnd rest)) t E') as H.
  cbn [String.append] in H. rewrite <- Hrest in H.
  unfold allSpace in E, Ht. rewrite H, Ht in E. discriminate E.
Qed.

Lemma trim_idempotent (s : string) : trim (trim s) = trim s.
Proof.
  unfold trim.
  assert (Hstart : trimStart (trimEnd (trimStart s)) = trimEnd (trimStart s)).
  { rewrite trimStart_eq.
    destruct (afterSpace (trimEnd (trimStart s))) as [r|] eqn:E;
      [|reflexivity].
    exfalso. destruct (trimEnd_split (trimStart s)) as (t & Hs & _).
    pose proof (afterSpace_app _ _ t E) as H. rewrite <- Hs in H.
    rewrite afterSpace_trimStart in H. discriminate H. }
  rewrite Hstart. apply trimEnd_idempotent.
Qed.

Lemma commaFree_app (a b : string) :
  commaFree (a ++ b) = commaFree a && commaFree b.
Proof.
  induction a as [|c a IH]; [reflexivity|].
  simpl. rewrite IH, andb_assoc. reflexivity.
Qed.

Lemma trim_commaFree (s : string) :
  commaFree s = true -> commaFree (trim s) = true.
Proof.
  intros H. unfold trim.
  destruct (trimStart_suffix s) as [w Hw].
  destruct (trimEnd_split (trimStart s)) as (t & Ht & _).
  rewrite Hw, commaFree_app in H. apply andb_prop in H. destruct H as [_ H].
  rewrite Ht, commaFree_app in H. apply andb_prop in H. destruct H as [H _].
  exact H.
Qed.

(** X25. Tags are stored normalised.  For a tags string, the stored list
    is the comma-separated parts of the string, in order, each trimmed:
    no stored tag contains a comma or has leading or trailing white space
    (trimming it again changes nothing), and the parts joined by commas
    are the posted string.  Absent or empty tags give the empty list; a
    truthy value that is not a string makes the conversion throw. *)
Theorem stored_tags_are_normalised (s : string) :
  (s <> "" ->
   parseTags (JStr s) = Resolved (map trim (splitComma s)) /\
   Forall (fun t => trim t = t /\ commaFree t = true)
     (map trim (splitComma s)) /\
   String.concat "," (splitComma s) = s) /\
  parseTags (JStr "") = Resolved [] /\
  parseTags JUndefined = Resolved [] /\
  (forall items, parseTags (JArr items) = Rejected).
Proof.
  split; [|repeat split; reflexivity].
  intros Hne. split; [|split; [|apply splitComma_concat]].
  - unfold parseTags. cbn [truthy]. apply String.eqb_neq in Hne.
    rewrite Hne. reflexivity.
  - rewrite Forall_map. eapply Forall_impl; [|apply splitComma_commaFree].
    intros t Ht. split; [apply trim_idempotent|].
    apply trim_commaFree. exact Ht.
Qed.

Lemma stored_tags_are_normalised_witness :
  parseTags (JStr spacedTags) = Resolved ["x"; "y"] /\
  Forall (fun t => trim t = t /\ commaFree t = true) ["x"; "y"] /\
  String.concat "," (splitComma spacedTags) = spacedTags.
Proof.
  destruct (stored_tags_are_normalised spacedTags) as [H _].
  apply H. discriminate.
Defined.

End Training.

(* ===================================================================== *)
(** ** Projects *)
(* ===================================================================== *)

Module ProjectFacts.
Import Gen Store Server Model StoreFacts GenerateFacts AdapterFacts Sample.

(** X26. A project posted without brand elements, with a name and a
    description the store takes (both present, for one) and a string
    design type, is created (201) for the caller with an empty palette
    and no fonts, so the prompt built for any of its designs with string
    content says [Colors: default] and [Fonts: modern]; and the owner's
    project listing then contains it.  (Posted without name or without
    description it is answered 500: see [createProject_cases].) *)
Theorem project_without_brand_prompts_with_defaults
    P st h caller b newId now dt fields :
  auth P h = inr caller ->
  truthy (cp_brandElements b) = false ->
  cp_designType b = JStr dt ->
  writable (cp_name b) = true ->
  writable (cp_description b) = true ->
  exists p ps,
    route_createProject P st h b newId now =
      (reply 201 (ProjectBody newId p), with_projects (add newId p) st) /\
    p_userId p = c_userId caller /\
    p_brandElements p = JObj [("colorPalette", JArr []); ("fonts", JArr [])] /\
    buildPrompt (projectData p) (contentOf fields) =
      Resolved
        (promptText dt "default" "modern"
           (fieldOf "title" fields) (fieldOf "copy" fields)
           (fieldOf "description" fields) (fieldOf "cta" fields)
           (fieldOf "footerContent" fields)) /\
    route_listProjects P (with_projects (add newId p) st) h = inr ps /\
    In (newId, p) ps.
Proof.
  intros Hauth Hbe Hdt Hname Hdesc. unfold route_createProject, createProject.
  rewrite Hauth, Hbe. cbn [p_name p_description p_brandElements p_designType].
  rewrite Hname, Hdesc, Hdt. cbn [andb writable defaultBrandElements negb].
  change ("colorPalette" =? "") with false.
  change ("fonts" =? "") with false. cbn [negb andb].
  eexists. eexists.
  split; [reflexivity|]. split; [reflexivity|]. split; [reflexivity|].
  split.
  - apply (typed_prompt _ dt [] [] fields); reflexivity.
  - unfold route_listProjects, listProjects. rewrite Hauth.
    split; [reflexivity|].
    rewrite In_orderByDesc, In_where. cbn [snd p_userId projects with_projects].
    rewrite String.eqb_refl. split; [|reflexivity].
    unfold add. rewrite in_app_iff. right. left. reflexivity.
Qed.

Lemma project_without_brand_prompts_with_defaults_witness :
  exists p ps,
    route_createProject toyPlatform emptyDb aliceHeader aliceProjectBody
      "p1" 10 =
      (reply 201 (ProjectBody "p1" p), with_projects (add "p1" p) emptyDb) /\
    p_userId p = c_userId alice /\
    p_brandElements p = JObj [("colorPalette", JArr []); ("fonts", JArr [])] /\
    buildPrompt (projectData p) (contentOf [("title", "50% Off")]) =
      Resolved
        (promptText "social_media" "default" "modern"
           (fieldOf "title" [("title", "50% Off")])
           (fieldOf "copy" [("title", "50% Off")])
           (fieldOf "description" [("title", "50% Off")])
           (fieldOf "cta" [("title", "50% Off")])
           (fieldOf "footerContent" [("title", "50% Off")])) /\
    route_listProjects toyPlatform (with_projects (add "p1" p) emptyDb)
      aliceHeader = inr ps /\
    In ("p1", p) ps.
Proof.
  apply (project_without_brand_prompts_with_defaults toyPlatform emptyDb
           aliceHeader alice aliceProjectBody "p1" 10 "social_media"
           [("title", "50% Off")]); reflexivity.
Defined.

End ProjectFacts.
